(** * PyAbel basis cache: [abel/tools/basis.py]

    A shallow embedding of [get_bs_cached], the function that looks a basis
    matrix up in a caller-supplied memory slot, then among the files of a
    basis directory, and otherwise generates it and saves it.

    Modelling choices, all local to this file:
    - Python [int] and [str] on integers are [py_int] and [str_Z] over [Z];
      file names and paths are [string]s of bytes. [int] is modelled in full
      on ASCII text; what it makes of text with a byte outside ASCII (the
      digits and spaces of other scripts) is left to the [Platform].
    - A two-dimensional numpy array is an [ndarray]: its shape and its rows
      of IEEE binary64 numbers (Rocq's primitive [float]).
    - The file system is an association list from paths to file contents
      (an array, or something [np.load] cannot read), in directory-listing
      order; where a new file enters the listing is left to the
      [Platform]. Every effect of a call (glob, load, generate, save) is
      appended to a trace. Directories exist, can be written and hold files
      only, their names hold no glob wildcard, and a path names a file by
      its text.
    - The four generators live in other modules of the package
      ([abel.linbasex], [abel.dasch]); they are parameters of the section.
    - [verbose] only selects diagnostics printed to the terminal and never
      changes control flow; it is left out. *)

From Stdlib Require Import ZArith List String Ascii Bool Lia.
From Stdlib Require Import PrimFloat FloatOps SpecFloat.
From Stdlib Require Import DecimalString DecimalPos.
Import ListNotations.

Local Open Scope list_scope.
Local Open Scope string_scope.

(** ** What the code leaves to its platform *)

Class Platform : Type := {
  (** [int(s)] for a string with a byte outside ASCII: the interpreter's
      tables of digits and spaces decide. *)
  int_non_ascii : string -> option Z;
  (** The place a file just created takes in the listing of its directory,
      given its path and the paths listed so far. *)
  new_file_index : string -> list string -> nat
}.

(** ** Strings as Python uses them here *)

Module PyStr.

(** [str(n)] and ["{}".format(n)] for an integer. *)
Definition str_Z (z : Z) : string := NilZero.string_of_int (Z.to_int z).

(** [''.join(l)]. *)
Definition join (l : list string) : string :=
  fold_right String.append EmptyString l.

(** [s.split('_')]: never empty, one more token than there are separators. *)
Fixpoint split (sep : ascii) (s : string) : list string :=
  match s with
  | EmptyString => [EmptyString]
  | String c r =>
      if Ascii.eqb c sep then EmptyString :: split sep r
      else match split sep r with
           | t :: ts => String c t :: ts
           | [] => [String c EmptyString]
           end
  end.

(** [l[-2]]; [None] stands for the IndexError of a list shorter than two. *)
Definition getitem_m2 {A : Type} (l : list A) : option A :=
  match rev l with
  | _ :: x :: _ => Some x
  | _ => None
  end.

(** Whether [c] occurs in [s]. *)
Fixpoint mem (c : ascii) (s : string) : bool :=
  match s with
  | EmptyString => false
  | String d r => Ascii.eqb d c || mem c r
  end.

(** [s] without its prefix [p], when it has it. *)
Fixpoint strip_prefix (p s : string) : option string :=
  match p, s with
  | EmptyString, _ => Some s
  | String a p', String b s' => if Ascii.eqb a b then strip_prefix p' s' else None
  | String _ _, EmptyString => None
  end.

Fixpoint last_char (s : string) : option ascii :=
  match s with
  | EmptyString => None
  | String c EmptyString => Some c
  | String _ r => last_char r
  end.

(** The characters [int] skips around an ASCII literal: tab, line feed,
    vertical tab, form feed, carriage return and space. *)
Definition is_space (c : ascii) : bool :=
  let n := nat_of_ascii c in
  ((9 <=? n) && (n <=? 13) || (n =? 32))%nat.

(** Whether every byte is below 128. *)
Fixpoint is_ascii (s : string) : bool :=
  match s with
  | EmptyString => true
  | String c r => (nat_of_ascii c <? 128)%nat && is_ascii r
  end.

Definition digit_value (c : ascii) : option Z :=
  let n := nat_of_ascii c in
  if ((48 <=? n) && (n <=? 57))%nat then Some (Z.of_nat (n - 48)) else None.

Fixpoint lstrip (s : string) : string :=
  match s with
  | String c r => if is_space c then lstrip r else s
  | EmptyString => EmptyString
  end.

Fixpoint rstrip (s : string) : string :=
  match s with
  | EmptyString => EmptyString
  | String c r =>
      match rstrip r with
      | EmptyString => if is_space c then EmptyString else String c EmptyString
      | r' => String c r'
      end
  end.

(** The value of a run of decimal digits continuing [acc]; [None] when a
    character is not a digit. *)
Fixpoint digits (acc : Z) (s : string) : option Z :=
  match s with
  | EmptyString => Some acc
  | String c r =>
      match digit_value c with
      | Some d => digits (10 * acc + d) r
      | None => None
      end
  end.

Definition unsigned_literal (s : string) : option Z :=
  match s with
  | EmptyString => None
  | _ => digits 0 s
  end.

(** [int(s)] in base ten for ASCII text: surrounding white space, an
    optional sign, at least one digit. [None] stands for the ValueError of
    an invalid literal. (A token of a split at ['_'] holds no underscore, so
    digit grouping plays no part.) *)
Definition ascii_int (s : string) : option Z :=
  match rstrip (lstrip s) with
  | EmptyString => None
  | String c r =>
      if Ascii.eqb c "+" then unsigned_literal r
      else if Ascii.eqb c "-" then option_map Z.opp (unsigned_literal r)
      else unsigned_literal (String c r)
  end.

(** [int(s)] in base ten. *)
Definition py_int {P : Platform} (s : string) : option Z :=
  if is_ascii s then ascii_int s else int_non_ascii s.

(** A decimal integer written out: an optional sign and at least one
    digit, nothing else. *)
Fixpoint all_digits (s : string) : bool :=
  match s with
  | EmptyString => true
  | String c r =>
      match digit_value c with
      | Some _ => all_digits r
      | None => false
      end
  end.

Definition digit_string (s : string) : bool :=
  match s with
  | EmptyString => false
  | _ => all_digits s
  end.

Definition decimal_integer_string (s : string) : bool :=
  match s with
  | EmptyString => false
  | String c r =>
      if Ascii.eqb c "+" || Ascii.eqb c "-" then digit_string r
      else digit_string s
  end.

End PyStr.

(** ** [os.path.join] on POSIX *)

Module OsPath.

Definition starts_with_slash (s : string) : bool :=
  match s with
  | String "/" _ => true
  | _ => false
  end.

(** What [join] puts in front of a relative second component. *)
Definition dir_prefix (a : string) : string :=
  match PyStr.last_char a with
  | None => a
  | Some "/"%char => a
  | Some _ => a ++ "/"
  end.

Definition join (a b : string) : string :=
  if starts_with_slash b then b else dir_prefix a ++ b.

End OsPath.

(** ** numpy arrays of rank two *)

Module Np.

Record ndarray : Type := mk_ndarray {
  shape0 : nat;
  shape1 : nat;
  rows : list (list float)
}.

Definition shape (D : ndarray) : nat * nat := (shape0 D, shape1 D).

Definition wf (D : ndarray) : Prop :=
  List.length (rows D) = shape0 D /\
  Forall (fun r => List.length r = shape1 D) (rows D).

(** [D[i, j]] for indices from zero. *)
Definition item (D : ndarray) (i j : nat) : option float :=
  match nth_error (rows D) i with
  | Some r => nth_error r j
  | None => None
  end.

(** Where the slice [:stop] of an axis of length [len] ends: a negative
    [stop] counts from the end, and both ends are clipped. *)
Definition slice_stop (stop : Z) (len : nat) : nat :=
  if (stop <? 0)%Z then Z.to_nat (Z.of_nat len + stop)
  else Nat.min (Z.to_nat stop) len.

(** [D[:cols, :nbf]]. *)
Definition getitem_slices (D : ndarray) (cols nbf : Z) : ndarray :=
  let r := slice_stop cols (shape0 D) in
  let c := slice_stop nbf (shape1 D) in
  {| shape0 := r; shape1 := c; rows := map (firstn c) (firstn r (rows D)) |}.

Definition pi : float := 0x1.921fb54442d18p+1%float.

Definition int64_min : Z := (- 2 ^ 63)%Z.

(** [x.astype(int)] for one element on a 64-bit platform: the fraction is
    dropped; what does not fit (also NaN and the infinities) comes out as the
    least 64-bit integer. *)
Definition astype_int (x : float) : Z :=
  match Prim2SF x with
  | S754_zero _ => 0%Z
  | S754_finite s m e =>
      let mag := if (0 <=? e)%Z then (Z.pos m * 2 ^ e)%Z
                 else Z.shiftr (Z.pos m) (- e) in
      let v := if s then (- mag)%Z else mag in
      if ((int64_min <=? v) && (v <? 2 ^ 63))%Z then v else int64_min
  | _ => int64_min
  end.

End Np.

(** ** Effects: exceptions, the basis files, the trace of a call *)

Inductive exn : Type :=
| ValueError_method (method : string)   (* no generator for this method *)
| ValueError_int (literal : string)     (* [int] of an invalid literal *)
| IndexError                            (* [l[-2]] of a short list *)
| IOError (path : string).              (* [np.load] of what is no array *)

(** What a file holds: an array as [np.save] writes it, or something
    [np.load] cannot read. *)
Inductive content : Type :=
| Npy (D : Np.ndarray)
| Unreadable.

Inductive event : Type :=
| Glob (pattern : string)
| Load (path : string)                  (* [np.load] returned an array *)
| LoadFailed (path : string)            (* [np.load] raised *)
| Generate (method : string) (cols : Z)
| Save (path : string).

Record world : Type := mk_world {
  files : list (string * content);
  trace : list event
}.

Inductive outcome (A : Type) : Type :=
| Returned (a : A)
| Raised (e : exn).

Arguments Returned {A} a.
Arguments Raised {A} e.

Definition io (A : Type) : Type := world -> outcome A * world.

Definition ret {A : Type} (a : A) : io A := fun w => (Returned a, w).

Definition raise {A : Type} (e : exn) : io A := fun w => (Raised e, w).

Definition bind {A B : Type} (c : io A) (k : A -> io B) : io B :=
  fun w =>
    match c w with
    | (Returned a, w') => k a w'
    | (Raised e, w') => (Raised e, w')
    end.

Notation "x <- c ;; k" := (bind c (fun x => k))
  (at level 61, c at next level, right associativity).
Notation "c ;;; k" := (bind c (fun _ => k))
  (at level 61, right associativity).

Definition emit (e : event) : io unit :=
  fun w => (Returned tt, {| files := files w; trace := (trace w ++ [e])%list |}).

(** An [option] whose [None] is the exception [e]. *)
Definition or_raise {A : Type} (e : exn) (o : option A) : io A :=
  match o with
  | Some a => ret a
  | None => raise e
  end.

Module Fs.

Fixpoint lookup (path : string) (fs : list (string * content)) : option content :=
  match fs with
  | [] => None
  | (p, c) :: rest => if String.eqb p path then Some c else lookup path rest
  end.

(** An existing file overwritten where it stands in the listing. *)
Fixpoint replace (path : string) (c : content) (fs : list (string * content))
  : list (string * content) :=
  match fs with
  | [] => []
  | (p, c') :: rest =>
      if String.eqb p path then (p, c) :: rest else (p, c') :: replace path c rest
  end.

(** [x] put at place [n] of [l], at the end when [l] is shorter. *)
Fixpoint insert_at {A : Type} (n : nat) (x : A) (l : list A) {struct l}
  : list A :=
  match l with
  | [] => [x]
  | a :: r =>
      match n with
      | O => x :: a :: r
      | S m => a :: insert_at m x r
      end
  end.

(** Writing a file: an existing one is overwritten where it stands, a new
    one enters the listing where the platform puts it. *)
Definition write {P : Platform} (path : string) (c : content)
  (fs : list (string * content)) : list (string * content) :=
  match lookup path fs with
  | Some _ => replace path c fs
  | None => insert_at (new_file_index path (map fst fs)) (path, c) fs
  end.

(** A path matches the pattern [stem ++ "*"] when it continues [stem]
    within the same directory. *)
Definition matches (stem path : string) : bool :=
  match PyStr.strip_prefix stem path with
  | Some rest => negb (PyStr.mem "/" rest)
  | None => false
  end.

End Fs.

(** [glob.glob(stem + '*')], in listing order. *)
Definition glob_glob (stem : string) : io (list string) :=
  emit (Glob (stem ++ "*")) ;;;
  fun w => (Returned (filter (Fs.matches stem) (map fst (files w))), w).

(** [np.load(path)]: the array of an array file; anything else raises. *)
Definition np_load (path : string) : io Np.ndarray :=
  fun w =>
    match Fs.lookup path (files w) with
    | Some (Npy D) => (emit (Load path) ;;; ret D) w
    | _ => (emit (LoadFailed path) ;;; raise (IOError path)) w
    end.

Definition np_save {P : Platform} (path : string) (D : Np.ndarray) : io unit :=
  emit (Save path) ;;;
  fun w => (Returned tt,
            {| files := Fs.write path (Npy D) (files w); trace := trace w |}).

(** ** The options of [linbasex] that enter the file name *)

Record basis_options_t : Type := mk_options {
  legendre_orders : option (list Z);
  proj_angles : option (list float);
  radial_step : option Z;
  clip : option Z
}.

(** [dict()], the default. *)
Definition no_options : basis_options_t :=
  {| legendre_orders := None; proj_angles := None;
     radial_step := None; clip := None |}.

Inductive option_key : Type :=
| key_legendre_orders | key_proj_angles | key_radial_step | key_clip.

Definition default (key : option_key) : string :=
  match key with
  | key_legendre_orders => "02"
  | key_proj_angles => "050"
  | key_radial_step => PyStr.str_Z 1
  | key_clip => PyStr.str_Z 0
  end.

(** [np.array(angles)*100/np.pi]. *)
Definition proj_angles_fractpi (angles : list float) : list float :=
  map (fun a => (a * 100 / Np.pi)%float) angles.

(** The text appended for [key]: lines 79 to 94. *)
Definition option_value (key : option_key) (basis_options : basis_options_t) : string :=
  match key with
  | key_legendre_orders =>
      match legendre_orders basis_options with
      | Some l => PyStr.join (map PyStr.str_Z l)
      | None => default key
      end
  | key_proj_angles =>
      match proj_angles basis_options with
      | Some angles =>
          PyStr.join (map PyStr.str_Z (map Np.astype_int (proj_angles_fractpi angles)))
      | None => default key
      end
  | key_radial_step =>
      match radial_step basis_options with
      | Some v => PyStr.str_Z v
      | None => default key
      end
  | key_clip =>
      match clip basis_options with
      | Some v => PyStr.str_Z v
      | None => default key
      end
  end.

(** [basis_name] as it stands before the extension is added: lines 72 to
    96. *)
Definition basis_stem (method : string) (cols nbf : Z) (basis_options : basis_options_t)
  : string :=
  let basis_name := method ++ "_basis_" ++ PyStr.str_Z cols ++ "_" ++ PyStr.str_Z nbf in
  if String.eqb method "linbasex" then
    fold_left (fun name key => name ++ "_" ++ option_value key basis_options)
      [key_legendre_orders; key_proj_angles; key_radial_step; key_clip]
      basis_name
  else basis_name.

Definition basis_name (method : string) (cols nbf : Z) (basis_options : basis_options_t)
  : string :=
  basis_stem method cols nbf basis_options ++ ".npy".

(** ** [get_bs_cached] *)

(** The memory slot: lines 54 to 59. *)
Definition memory_cached (cached_basis : option (option Np.ndarray * option string))
  (method : string) (cols : Z) : option Np.ndarray :=
  match cached_basis with
  | Some (Some _basis, _method) =>
      if (cols <=? Z.of_nat (Np.shape0 _basis))%Z
         && match _method with Some m => String.eqb m method | None => false end
      then Some _basis
      else None
  | _ => None
  end.

(** The loop over the files found: lines 104 to 110. [Some] is its early
    return. *)
Fixpoint scan_basis_files {P : Platform} (cols nbf : Z) (basis_files : list string)
  : io (option Np.ndarray) :=
  match basis_files with
  | [] => ret None
  | bf :: rest =>
      tok <- or_raise IndexError (PyStr.getitem_m2 (PyStr.split "_" bf)) ;;
      n <- or_raise (ValueError_int tok) (PyStr.py_int tok) ;;
      if (cols <=? n)%Z then
        D <- np_load bf ;;
        ret (Some (Np.getitem_slices D cols nbf))
      else scan_basis_files cols nbf rest
  end.

Section Generators.

Context {P : Platform}.

Variables _bs_linbasex _bs_onion_peeling _bs_three_point _bs_two_point
  : Z -> basis_options_t -> Np.ndarray.

Definition basis_generator (method : string)
  : option (Z -> basis_options_t -> Np.ndarray) :=
  if String.eqb method "linbasex" then Some _bs_linbasex
  else if String.eqb method "onion_peeling" then Some _bs_onion_peeling
  else if String.eqb method "three_point" then Some _bs_three_point
  else if String.eqb method "two_point" then Some _bs_two_point
  else None.

Definition get_bs_cached (method : string) (cols nbf : Z)
  (basis_dir : option string)
  (cached_basis : option (option Np.ndarray * option string))
  (basis_options : basis_options_t) : io Np.ndarray :=
  match memory_cached cached_basis method cols with
  | Some _basis => ret _basis
  | None =>
      generator <- or_raise (ValueError_method method) (basis_generator method) ;;
      let basis_name := basis_name method cols nbf basis_options in
      found <- match basis_dir with
               | Some dir =>
                   basis_files <- glob_glob (OsPath.join dir (method ++ "_basis")) ;;
                   scan_basis_files cols nbf basis_files
               | None => ret None
               end ;;
      match found with
      | Some D => ret D
      | None =>
          emit (Generate method cols) ;;;
          let D := generator cols basis_options in
          match basis_dir with
          | Some dir => np_save (OsPath.join dir basis_name) D
          | None => ret tt
          end ;;;
          ret D
      end
  end.

End Generators.

(** ** Vocabulary of the statements *)

(** A call started on the files [fs] with an empty trace. *)
Definition run {A : Type} (c : io A) (fs : list (string * content))
  : outcome A * world :=
  c {| files := fs; trace := [] |}.

Definition known_methods : list string :=
  ["linbasex"; "onion_peeling"; "three_point"; "two_point"].

(** The paths [glob.glob] hands to the loop. *)
Definition candidates (dir method : string) (fs : list (string * content))
  : list string :=
  filter (Fs.matches (OsPath.join dir (method ++ "_basis"))) (map fst fs).

(** The files that sit directly in [dir]. *)
Definition listdir (dir : string) (fs : list (string * content)) : list string :=
  filter (Fs.matches (OsPath.dir_prefix dir)) (map fst fs).

(** [int(bf.split('_')[-2])], with both of its failures as [None]. *)
Definition embedded_size {P : Platform} (bf : string) : option Z :=
  match PyStr.getitem_m2 (PyStr.split "_" bf) with
  | Some tok => PyStr.py_int tok
  | None => None
  end.

(** The test of line 105, and its two ways of not holding. *)
Definition reusable {P : Platform} (cols : Z) (bf : string) : bool :=
  match embedded_size bf with
  | Some n => (cols <=? n)%Z
  | None => false
  end.

Definition too_small {P : Platform} (cols : Z) (bf : string) : bool :=
  match embedded_size bf with
  | Some n => (n <? cols)%Z
  | None => false
  end.

(** [bf] is the first path of [bfs] that passes the test, every path before
    it carrying a smaller size. *)
Definition first_reusable {P : Platform} (cols : Z) (bfs : list string) (bf : string)
  : Prop :=
  exists pre post,
    bfs = (pre ++ bf :: post)%list /\
    forallb (too_small cols) pre = true /\
    reusable cols bf = true.

(** Projection angles at 0, 45, 90 and 135 degrees, in radians. *)
Definition angles_0_45_90_135 : list float :=
  [0%float; (Np.pi / 4)%float; (Np.pi / 2)%float; (3 * Np.pi / 4)%float].

(** The methods whose generators live in [abel.dasch]; their names carry
    no option suffix. *)
Definition dasch_methods : list string :=
  ["onion_peeling"; "three_point"; "two_point"].

(** The radial step that enters the name: the option, or its default. *)
Definition radial_step_or_default (basis_options : basis_options_t) : Z :=
  match radial_step basis_options with
  | Some r => r
  | None => 1%Z
  end.

(** Generators and arrays to run the definitions on. *)
Module Sample.

Definition zeros (r c : nat) : Np.ndarray :=
  {| Np.shape0 := r; Np.shape1 := c; Np.rows := repeat (repeat 0%float c) r |}.

(** A square array of zeros, as the generators of [abel.dasch] size theirs. *)
Definition generator (cols : Z) (_ : basis_options_t) : Np.ndarray :=
  zeros (Z.to_nat cols) (Z.to_nat cols).

(** A platform that knows no digit outside ASCII and lists a new file
    first. *)
Definition platform : Platform :=
  {| int_non_ascii := fun _ => None; new_file_index := fun _ _ => O |}.

Definition get_bs_cached :=
  @get_bs_cached platform generator generator generator generator.

(** A directory listing whose order is not that of the sizes. *)
Definition dot_files : list (string * content) :=
  [("./two_point_basis_1_1.npy", Npy (zeros 1 1));
   ("./two_point_basis_3_3.npy", Npy (zeros 3 3));
   ("./two_point_basis_2_2.npy", Npy (zeros 2 2))].

(** The same directory with a file whose name carries no size. *)
Definition odd_files : list (string * content) :=
  [("./two_point_basis_1_1.npy", Npy (zeros 1 1));
   ("./two_point_basis_old.npy", Npy (zeros 9 9));
   ("./two_point_basis_9_9.npy", Npy (zeros 9 9))].

(** A directory whose one file carries its size between spaces. *)
Definition spaced_files : list (string * content) :=
  [("./two_point_basis_ 7 _3.npy", Npy (zeros 7 3))].

(** Options that set the radial step of [linbasex] to 5. *)
Definition step_5 : basis_options_t :=
  {| legendre_orders := None; proj_angles := None;
     radial_step := Some 5%Z; clip := None |}.

End Sample.

(** * Properties *)

(** ** Strings *)

Section StringFacts.

Context {P : Platform}.

Import PyStr.

Lemma append_assoc (a b c : string) : (a ++ b) ++ c = a ++ (b ++ c).
Proof.
  induction a as [|x a IH]; simpl; [reflexivity|].
  now rewrite IH.
Qed.

Lemma append_nil_r (a : string) : a ++ "" = a.
Proof.
  induction a as [|x a IH]; simpl; [reflexivity|].
  now rewrite IH.
Qed.

Lemma split_not_nil (sep : ascii) (s : string) : split sep s <> [].
Proof.
  destruct s as [|c r]; simpl; [discriminate|].
  destruct (Ascii.eqb c sep); [discriminate|].
  destruct (split sep r); discriminate.
Qed.

(** A separator ends a token: the tokens of the two sides are put side by
    side. *)
Lemma split_app_sep (sep : ascii) (a b : string) :
  split sep (a ++ String sep b) = (split sep a ++ split sep b)%list.
Proof.
  induction a as [|c a IH]; simpl.
  - now rewrite Ascii.eqb_refl.
  - destruct (Ascii.eqb c sep); [now rewrite IH|].
    rewrite IH.
    destruct (split sep a) as [|t ts] eqn:E; [|reflexivity].
    now destruct (split_not_nil sep a).
Qed.

(** Text put in front of [s] only reaches the first token of [s]. *)
Lemma split_app_tail (sep : ascii) (p s : string) :
  exists pre t0,
    split sep (p ++ s) = (pre ++ t0 :: tl (split sep s))%list.
Proof.
  induction p as [|c p IH]; simpl.
  - destruct (split sep s) as [|t ts] eqn:E.
    + now destruct (split_not_nil sep s).
    + now exists [], t.
  - destruct IH as (pre & t0 & IH). rewrite IH.
    destruct (Ascii.eqb c sep).
    + now exists (EmptyString :: pre), t0.
    + destruct pre as [|x pre]; simpl.
      * now exists [], (String c t0).
      * now exists (String c x :: pre), t0.
Qed.

Lemma getitem_m2_app {A : Type} (l1 l2 : list A) :
  (2 <= List.length l2)%nat -> getitem_m2 (l1 ++ l2) = getitem_m2 l2.
Proof.
  intros H. unfold getitem_m2. rewrite rev_app_distr.
  destruct (rev l2) as [|a [|b r]] eqn:E.
  - apply (f_equal (@List.length A)) in E. rewrite length_rev in E. simpl in E. lia.
  - apply (f_equal (@List.length A)) in E. rewrite length_rev in E. simpl in E. lia.
  - reflexivity.
Qed.

Lemma getitem_m2_some {A : Type} (l : list A) :
  (2 <= List.length l)%nat -> exists x, getitem_m2 l = Some x.
Proof.
  intros H. unfold getitem_m2.
  destruct (rev l) as [|a [|b r]] eqn:E.
  - apply (f_equal (@List.length A)) in E. rewrite length_rev in E. simpl in E. lia.
  - apply (f_equal (@List.length A)) in E. rewrite length_rev in E. simpl in E. lia.
  - now exists b.
Qed.

(** The second-to-last token of a path is that of the file name, whatever
    the directory, once the name has two separators. *)
Lemma getitem_m2_split_app (sep : ascii) (p s : string) :
  (3 <= List.length (split sep s))%nat ->
  getitem_m2 (split sep (p ++ s)) = getitem_m2 (split sep s).
Proof.
  intros H.
  destruct (split_app_tail sep p s) as (pre & t0 & E). rewrite E.
  destruct (split sep s) as [|t ts]; simpl in *; [lia|].
  change (pre ++ t0 :: ts)%list with (pre ++ [t0] ++ ts)%list.
  rewrite app_assoc.
  rewrite getitem_m2_app by lia.
  symmetry. now apply (getitem_m2_app [t]); lia.
Qed.

Lemma strip_prefix_app (a b c : string) :
  strip_prefix (a ++ b) (a ++ c) = strip_prefix b c.
Proof.
  induction a as [|x a IH]; simpl; [reflexivity|].
  now rewrite Ascii.eqb_refl.
Qed.

Lemma strip_prefix_sound (p s r : string) :
  strip_prefix p s = Some r -> s = p ++ r.
Proof.
  revert s. induction p as [|a p IH]; intros s H; simpl in *.
  - now inversion H.
  - destruct s as [|b s]; [discriminate|].
    destruct (Ascii.eqb a b) eqn:E; [|discriminate].
    apply Ascii.eqb_eq in E. subst b. now rewrite (IH s H).
Qed.

Lemma strip_prefix_refl (p r : string) : strip_prefix p (p ++ r) = Some r.
Proof.
  induction p as [|a p IH]; simpl; [reflexivity|].
  now rewrite Ascii.eqb_refl.
Qed.

Lemma mem_app (c : ascii) (a b : string) : mem c (a ++ b) = mem c a || mem c b.
Proof.
  induction a as [|x a IH]; simpl; [reflexivity|].
  now rewrite IH, orb_assoc.
Qed.

End StringFacts.

(** ** Printing an integer and reading it back *)

Section DecimalFacts.

Context {P : Platform}.

Import PyStr.

Lemma digits_of_uint_acc (d : Decimal.uint) (acc : positive) :
  digits (Zpos acc) (NilEmpty.string_of_uint d) = Some (Zpos (Pos.of_uint_acc d acc)).
Proof.
  revert acc. induction d as [|d IH|d IH|d IH|d IH|d IH|d IH|d IH|d IH|d IH|d IH];
    intros acc; [reflexivity|..];
    cbn [NilEmpty.string_of_uint digits Pos.of_uint_acc];
    match goal with
    | |- context [digit_value ?c] =>
        let v := eval vm_compute in (digit_value c) in
        change (digit_value c) with v
    end;
    cbv iota; rewrite <- IH; f_equal; lia.
Qed.

Lemma digits_of_uint (d : Decimal.uint) :
  digits 0 (NilEmpty.string_of_uint d) = Some (Z.of_N (Pos.of_uint d)).
Proof.
  induction d as [|d IH|d IH|d IH|d IH|d IH|d IH|d IH|d IH|d IH|d IH];
    [reflexivity|exact IH|..];
    cbn [NilEmpty.string_of_uint digits Pos.of_uint];
    match goal with
    | |- context [digit_value ?c] =>
        let v := eval vm_compute in (digit_value c) in
        change (digit_value c) with v
    end;
    cbv iota; apply digits_of_uint_acc.
Qed.

(** What [c] does not occur in: a run of decimal digits, when [c] is none. *)
Lemma mem_string_of_uint (c : ascii) (d : Decimal.uint) :
  digit_value c = None -> mem c (NilEmpty.string_of_uint d) = false.
Proof.
  intros Hc.
  induction d as [|d IH|d IH|d IH|d IH|d IH|d IH|d IH|d IH|d IH|d IH];
    [reflexivity|..];
    cbn [NilEmpty.string_of_uint mem]; rewrite IH, orb_false_r;
    match goal with
    | |- Ascii.eqb ?k c = false =>
        destruct (Ascii.eqb_spec k c) as [E|E]; [|reflexivity];
        rewrite <- E in Hc; discriminate
    end.
Qed.

Lemma lstrip_no_space (s : string) :
  (forall c, is_space c = true -> mem c s = false) -> lstrip s = s.
Proof.
  destruct s as [|c r]; [reflexivity|]. intros H. simpl.
  destruct (is_space c) eqn:E; [|reflexivity].
  specialize (H c E). simpl in H. now rewrite Ascii.eqb_refl in H.
Qed.

Lemma rstrip_no_space (s : string) :
  (forall c, is_space c = true -> mem c s = false) -> rstrip s = s.
Proof.
  induction s as [|c r IH]; [reflexivity|]. intros H. simpl.
  rewrite IH.
  - destruct r; [|reflexivity].
    destruct (is_space c) eqn:E; [|reflexivity].
    specialize (H c E). simpl in H. now rewrite Ascii.eqb_refl in H.
  - intros c' Hc'. specialize (H c' Hc'). simpl in H.
    now apply orb_false_elim in H.
Qed.

Lemma space_not_digit (c : ascii) : is_space c = true -> digit_value c = None.
Proof.
  unfold is_space, digit_value. intros H.
  destruct ((48 <=? nat_of_ascii c) && (nat_of_ascii c <=? 57))%nat eqn:E;
    [|reflexivity].
  apply andb_prop in E. destruct E as [E1 E2].
  apply Nat.leb_le in E1, E2.
  repeat (apply orb_prop in H; destruct H as [H|H]);
    try (apply andb_prop in H; destruct H as [H H']; apply Nat.leb_le in H, H');
    try apply Nat.eqb_eq in H; lia.
Qed.

Lemma ascii_int_of_uint (d : Decimal.uint) :
  d <> Decimal.Nil ->
  ascii_int (NilEmpty.string_of_uint d) = Some (Z.of_N (Pos.of_uint d)) /\
  ascii_int (String "-" (NilEmpty.string_of_uint d)) =
    Some (- Z.of_N (Pos.of_uint d))%Z.
Proof.
  intros Hd.
  assert (Hsp : forall c, is_space c = true ->
                          mem c (NilEmpty.string_of_uint d) = false).
  { intros c Hc. apply mem_string_of_uint. now apply space_not_digit. }
  assert (Hu : unsigned_literal (NilEmpty.string_of_uint d) =
               Some (Z.of_N (Pos.of_uint d))).
  { rewrite <- digits_of_uint. destruct d; [congruence|..]; reflexivity. }
  split; unfold ascii_int.
  - rewrite lstrip_no_space, rstrip_no_space by assumption.
    rewrite <- Hu. destruct d; [congruence|..]; reflexivity.
  - assert (Hsp' : forall c, is_space c = true ->
                             mem c (String "-" (NilEmpty.string_of_uint d)) = false).
    { intros c Hc. cbn [mem]. rewrite (Hsp c Hc), orb_false_r.
      destruct (Ascii.eqb_spec "-" c) as [E|E]; [|reflexivity].
      subst c. discriminate. }
    rewrite lstrip_no_space, rstrip_no_space by assumption.
    change (option_map Z.opp (unsigned_literal (NilEmpty.string_of_uint d)) =
            Some (- Z.of_N (Pos.of_uint d))%Z).
    now rewrite Hu.
Qed.

Lemma ascii_int_str_Z (z : Z) : ascii_int (str_Z z) = Some z.
Proof.
  destruct z as [|p|p]; [reflexivity|..]; unfold str_Z; simpl Z.to_int;
    pose proof (DecimalPos.Unsigned.to_uint_nonnil p) as Hn;
    pose proof (DecimalPos.Unsigned.of_to p) as Hp;
    destruct (ascii_int_of_uint _ Hn) as [H1 H2];
    unfold NilZero.string_of_int, NilZero.string_of_uint;
    destruct (Pos.to_uint p) eqn:E; try congruence;
    rewrite ?H1, ?H2, Hp; reflexivity.
Qed.

Lemma is_ascii_string_of_uint (d : Decimal.uint) :
  is_ascii (NilEmpty.string_of_uint d) = true.
Proof.
  induction d as [|d IH|d IH|d IH|d IH|d IH|d IH|d IH|d IH|d IH|d IH];
    [reflexivity|..]; cbn [NilEmpty.string_of_uint is_ascii]; now rewrite IH.
Qed.

(** [str(z)] is ASCII text. *)
Lemma is_ascii_str_Z (z : Z) : is_ascii (str_Z z) = true.
Proof.
  assert (H : forall d, is_ascii (NilZero.string_of_uint d) = true).
  { intros d. unfold NilZero.string_of_uint.
    destruct d; try reflexivity; apply is_ascii_string_of_uint. }
  destruct z as [|p|p]; [reflexivity|apply H|].
  unfold str_Z. cbn [Z.to_int NilZero.string_of_int is_ascii]. now rewrite H.
Qed.

(** [int(str(z))] is [z], on every platform. *)
Lemma py_int_str_Z (z : Z) : py_int (str_Z z) = Some z.
Proof.
  unfold py_int. rewrite is_ascii_str_Z. apply ascii_int_str_Z.
Qed.

(** On ASCII text [int] is the model in full. *)
Lemma py_int_ascii (s : string) : is_ascii s = true -> py_int s = ascii_int s.
Proof. intros H. unfold py_int. now rewrite H. Qed.

(** What [int] accepts is made of digits, a sign and white space only. *)
Lemma digits_charset (s : string) (acc n : Z) (c : ascii) :
  digits acc s = Some n -> mem c s = true -> digit_value c <> None.
Proof.
  revert acc. induction s as [|a r IH]; intros acc; cbn [digits mem];
    [discriminate|].
  destruct (digit_value a) as [d|] eqn:E; [|discriminate].
  intros H Hc. destruct (Ascii.eqb_spec a c) as [->|_].
  - congruence.
  - now apply (IH _ H).
Qed.

Lemma mem_lstrip (c : ascii) (s : string) :
  mem c s = true -> is_space c = true \/ mem c (lstrip s) = true.
Proof.
  induction s as [|a r IH]; cbn [mem lstrip]; [discriminate|].
  destruct (is_space a) eqn:Ea.
  - destruct (Ascii.eqb_spec a c) as [->|_]; [now left|exact IH].
  - intros H. right. exact H.
Qed.

Lemma mem_rstrip (c : ascii) (s : string) :
  mem c s = true -> is_space c = true \/ mem c (rstrip s) = true.
Proof.
  induction s as [|a r IH]; cbn [mem rstrip]; [discriminate|].
  destruct (Ascii.eqb_spec a c) as [->|Hac]; cbn [orb].
  - intros _. destruct (rstrip r).
    + destruct (is_space c) eqn:E; [now left|].
      right. cbn [mem]. now rewrite Ascii.eqb_refl.
    + right. cbn [mem]. now rewrite Ascii.eqb_refl.
  - intros H. destruct (IH H) as [Hs|Hm]; [now left|]. right.
    destruct (rstrip r); [discriminate|].
    cbn [mem] in *. rewrite Hm. apply orb_true_r.
Qed.

Lemma ascii_int_charset (s : string) (n : Z) (c : ascii) :
  ascii_int s = Some n -> mem c s = true ->
  is_space c = true \/ c = "+"%char \/ c = "-"%char \/ digit_value c <> None.
Proof.
  intros H Hc.
  destruct (mem_lstrip c s Hc) as [Hs|Hl]; [now left|].
  destruct (mem_rstrip c _ Hl) as [Hs|Hr]; [now left|].
  right. unfold ascii_int in H.
  destruct (rstrip (lstrip s)) as [|a r]; [discriminate|].
  assert (Hu : forall t, unsigned_literal t = Some n \/
                         option_map Z.opp (unsigned_literal t) = Some n ->
                         mem c t = true -> digit_value c <> None).
  { intros t Ht Hm. unfold unsigned_literal in Ht.
    destruct t as [|b t]; [discriminate|].
    destruct (digits 0 (String b t)) as [m|] eqn:E.
    - now apply (digits_charset _ _ _ _ E).
    - destruct Ht; discriminate. }
  cbn [mem] in Hr.
  destruct (Ascii.eqb_spec a "+") as [->|Hp].
  - destruct (Ascii.eqb_spec "+" c) as [<-|_]; [now left|].
    right; right. apply (Hu r); [now left|exact Hr].
  - destruct (Ascii.eqb_spec a "-") as [->|Hm].
    + destruct (Ascii.eqb_spec "-" c) as [<-|_]; [now right; left|].
      right; right. apply (Hu r); [now right|exact Hr].
    + right; right. apply (Hu (String a r)); [now left|exact Hr].
Qed.

(** What [int] rejects on ASCII text, said by the text itself: once the
    white space around it is removed, it is not a sign followed by digits,
    nor digits alone. *)
Lemma digits_none_iff (s : string) (acc : Z) :
  digits acc s = None <-> all_digits s = false.
Proof.
  revert acc. induction s as [|c r IH]; intros acc; cbn [digits all_digits].
  - split; discriminate.
  - destruct (digit_value c); [apply IH|tauto].
Qed.

Lemma unsigned_literal_none_iff (s : string) :
  unsigned_literal s = None <-> digit_string s = false.
Proof.
  unfold unsigned_literal, digit_string.
  destruct s; [tauto|apply digits_none_iff].
Qed.

Lemma ascii_int_rejects (s : string) :
  ascii_int s = None <-> decimal_integer_string (rstrip (lstrip s)) = false.
Proof.
  unfold ascii_int, decimal_integer_string.
  destruct (rstrip (lstrip s)) as [|c r]; [tauto|].
  destruct (Ascii.eqb c "+"); cbn [orb].
  - apply unsigned_literal_none_iff.
  - destruct (Ascii.eqb c "-").
    + rewrite <- unsigned_literal_none_iff.
      destruct (unsigned_literal r); simpl; split; congruence.
    + apply unsigned_literal_none_iff.
Qed.

(** [str(z)] holds no underscore. *)
Lemma mem_underscore_str_Z (z : Z) : mem "_" (str_Z z) = false.
Proof.
  assert (H : forall d, mem "_" (NilZero.string_of_uint d) = false).
  { intros d. unfold NilZero.string_of_uint.
    destruct d; try reflexivity; now apply mem_string_of_uint. }
  destruct z as [|p|p]; [reflexivity|apply H|].
  unfold str_Z. simpl. apply H.
Qed.

Lemma split_nosep (sep : ascii) (s : string) :
  mem sep s = false -> split sep s = [s].
Proof.
  induction s as [|c r IH]; [reflexivity|]. simpl. intros H.
  apply orb_false_elim in H. destruct H as [H1 H2].
  now rewrite H1, (IH H2).
Qed.

(** The second-to-last token of anything that ends in [_a_b]. *)
Lemma getitem_m2_split_last_two (p a b : string) :
  mem "_" a = false -> mem "_" b = false ->
  getitem_m2 (split "_" (p ++ String "_" (a ++ String "_" b))) = Some a.
Proof.
  intros Ha Hb. rewrite !split_app_sep, (split_nosep _ a Ha), (split_nosep _ b Hb).
  now rewrite (getitem_m2_app _ [a; b]) by (simpl; lia).
Qed.

End DecimalFacts.

(** ** Paths and files *)

Section PathFacts.

Context {P : Platform}.

Lemma join_relative (a b : string) :
  OsPath.starts_with_slash b = false -> OsPath.join a b = OsPath.dir_prefix a ++ b.
Proof. intros H. unfold OsPath.join. now rewrite H. Qed.

(** The stem the glob pattern is built from always ends in ["_basis"]. *)
Lemma join_basis_stem (dir method : string) :
  exists x, OsPath.join dir (method ++ "_basis") = x ++ "_basis".
Proof.
  unfold OsPath.join.
  destruct (OsPath.starts_with_slash (method ++ "_basis")).
  - now exists method.
  - exists (OsPath.dir_prefix dir ++ method). now rewrite append_assoc.
Qed.

(** Every path the glob returns has a second-to-last token: the IndexError
    of [[-2]] cannot happen in the loop. *)
Lemma matches_has_token (dir method p : string) :
  Fs.matches (OsPath.join dir (method ++ "_basis")) p = true ->
  exists tok, PyStr.getitem_m2 (PyStr.split "_" p) = Some tok.
Proof.
  unfold Fs.matches. intros H.
  destruct (PyStr.strip_prefix _ p) as [rest|] eqn:E; [|discriminate].
  apply strip_prefix_sound in E.
  destruct (join_basis_stem dir method) as (x & Hx).
  rewrite Hx, append_assoc in E. subst p.
  change ("_basis" ++ rest) with (String "_" ("basis" ++ rest)).
  rewrite split_app_sep.
  apply getitem_m2_some. rewrite length_app.
  pose proof (split_not_nil "_" x) as H1.
  pose proof (split_not_nil "_" ("basis" ++ rest)) as H2.
  destruct (PyStr.split "_" x); [congruence|].
  destruct (PyStr.split "_" ("basis" ++ rest)); [congruence|].
  simpl. lia.
Qed.

Lemma lookup_in (p : string) (fs : list (string * content)) :
  In p (map fst fs) -> exists D, Fs.lookup p fs = Some D.
Proof.
  induction fs as [|[q D] fs IH]; simpl; [tauto|].
  intros [H|H].
  - subst q. rewrite String.eqb_refl. now exists D.
  - destruct (String.eqb q p); [now exists D|]. now apply IH.
Qed.

Lemma lookup_not_in (p : string) (fs : list (string * content)) :
  ~ In p (map fst fs) -> Fs.lookup p fs = None.
Proof.
  induction fs as [|[q D] fs IH]; simpl; [reflexivity|].
  intros H. destruct (String.eqb q p) eqn:E.
  - apply String.eqb_eq in E. tauto.
  - apply IH. tauto.
Qed.

Lemma lookup_some_in (p : string) (c : content) (fs : list (string * content)) :
  Fs.lookup p fs = Some c -> In p (map fst fs).
Proof.
  induction fs as [|[q c'] fs IH]; simpl; [discriminate|].
  destruct (String.eqb_spec q p) as [E|E]; [now left|].
  intros H. right. now apply IH.
Qed.

Lemma lookup_app (p : string) (l1 l2 : list (string * content)) :
  ~ In p (map fst l1) -> Fs.lookup p (l1 ++ l2) = Fs.lookup p l2.
Proof.
  induction l1 as [|[q c] l1 IH]; simpl; [reflexivity|].
  intros H. destruct (String.eqb_spec q p) as [E|E]; [tauto|].
  apply IH. tauto.
Qed.

Lemma lookup_app_l (p : string) (c : content) (l1 l2 : list (string * content)) :
  Fs.lookup p l1 = Some c -> Fs.lookup p (l1 ++ l2) = Some c.
Proof.
  induction l1 as [|[q c'] l1 IH]; simpl; [discriminate|].
  destruct (String.eqb q p); [trivial|exact IH].
Qed.

(** A new entry splits the listing in two and leaves both parts as they
    were. *)
Lemma insert_at_split {A : Type} (n : nat) (x : A) (l : list A) :
  exists l1 l2, l = (l1 ++ l2)%list /\ Fs.insert_at n x l = (l1 ++ x :: l2)%list.
Proof.
  revert n. induction l as [|a l IH]; intros n; simpl.
  - now exists [], [].
  - destruct n as [|n].
    + now exists [], (a :: l).
    + destruct (IH n) as (l1 & l2 & E1 & E2).
      exists (a :: l1), l2. simpl. now rewrite <- E1, E2.
Qed.

Lemma write_new (p : string) (c : content) (fs : list (string * content)) :
  ~ In p (map fst fs) ->
  exists l1 l2, fs = (l1 ++ l2)%list /\ Fs.write p c fs = (l1 ++ (p, c) :: l2)%list.
Proof.
  intros H. unfold Fs.write. rewrite (lookup_not_in _ _ H).
  apply insert_at_split.
Qed.

Lemma write_old (p : string) (c : content) (fs : list (string * content)) :
  In p (map fst fs) -> Fs.write p c fs = Fs.replace p c fs.
Proof.
  intros H. unfold Fs.write.
  destruct (lookup_in _ _ H) as (c' & E). now rewrite E.
Qed.

Lemma map_fst_replace (p : string) (c : content) (fs : list (string * content)) :
  map fst (Fs.replace p c fs) = map fst fs.
Proof.
  induction fs as [|[q c'] fs IH]; simpl; [reflexivity|].
  destruct (String.eqb q p); simpl; [reflexivity|]. now rewrite IH.
Qed.

Lemma lookup_replace (p q : string) (c : content) (fs : list (string * content)) :
  Fs.lookup q (Fs.replace p c fs) =
  if String.eqb p q then option_map (fun _ => c) (Fs.lookup q fs)
  else Fs.lookup q fs.
Proof.
  induction fs as [|[r c'] fs IH]; simpl.
  - now destruct (String.eqb p q).
  - destruct (String.eqb_spec r p) as [E|E]; simpl.
    + subst r. destruct (String.eqb_spec p q) as [E'|E']; reflexivity.
    + destruct (String.eqb_spec r q) as [E'|E'].
      * subst r. destruct (String.eqb_spec p q) as [E''|E'']; [|reflexivity].
        now subst.
      * exact IH.
Qed.

Lemma in_dec_path (p : string) (l : list string) : {In p l} + {~ In p l}.
Proof. apply in_dec, string_dec. Qed.

Lemma lookup_write (p : string) (c : content) (fs : list (string * content)) :
  Fs.lookup p (Fs.write p c fs) = Some c.
Proof.
  destruct (in_dec_path p (map fst fs)) as [H|H].
  - rewrite write_old, lookup_replace, String.eqb_refl by assumption.
    destruct (lookup_in _ _ H) as (c' & E). now rewrite E.
  - destruct (write_new p c fs H) as (l1 & l2 & E1 & E2). rewrite E2.
    rewrite lookup_app.
    + simpl. now rewrite String.eqb_refl.
    + intros Hin. apply H. rewrite E1, map_app. apply in_or_app. now left.
Qed.

Lemma filter_nil_iff {A : Type} (f : A -> bool) (l : list A) :
  filter f l = [] <-> forall x, In x l -> f x = false.
Proof.
  induction l as [|a l IH]; simpl; [tauto|].
  destruct (f a) eqn:E; split.
  - discriminate.
  - intros H. specialize (H a (or_introl eq_refl)). congruence.
  - intros H x [<-|Hx]; [exact E|]. now apply IH.
  - intros H. apply IH. intros x Hx. apply H. now right.
Qed.

Lemma lookup_write_other (p q : string) (c : content)
  (fs : list (string * content)) :
  q <> p -> Fs.lookup q (Fs.write p c fs) = Fs.lookup q fs.
Proof.
  intros Hq. destruct (in_dec_path p (map fst fs)) as [H|H].
  - rewrite write_old, lookup_replace by assumption.
    destruct (String.eqb_spec p q) as [E|E]; [now subst|reflexivity].
  - destruct (write_new p c fs H) as (l1 & l2 & E1 & E2). rewrite E2, E1.
    clear E1 E2 H. induction l1 as [|[r c'] l1 IH]; simpl.
    + destruct (String.eqb_spec p q) as [E|E]; [now subst|reflexivity].
    + destruct (String.eqb r q); [reflexivity|exact IH].
Qed.

Lemma map_fst_write_old (p : string) (c : content)
  (fs : list (string * content)) :
  In p (map fst fs) -> map fst (Fs.write p c fs) = map fst fs.
Proof.
  intros H. rewrite write_old by assumption. apply map_fst_replace.
Qed.

Lemma in_map_fst_write (p : string) (c : content)
  (fs : list (string * content)) :
  In p (map fst (Fs.write p c fs)).
Proof.
  apply (lookup_some_in p c). apply lookup_write.
Qed.

Lemma replace_replace (p : string) (c : content) (fs : list (string * content)) :
  Fs.replace p c (Fs.replace p c fs) = Fs.replace p c fs.
Proof.
  induction fs as [|[q c'] fs IH]; simpl; [reflexivity|].
  destruct (String.eqb q p) eqn:E; simpl; rewrite E; [reflexivity|].
  now rewrite IH.
Qed.

Lemma replace_app_new (p : string) (c : content) (l1 l2 : list (string * content)) :
  ~ In p (map fst l1) ->
  Fs.replace p c (l1 ++ (p, c) :: l2) = (l1 ++ (p, c) :: l2)%list.
Proof.
  induction l1 as [|[q c'] l1 IH]; simpl; intros H.
  - now rewrite String.eqb_refl.
  - destruct (String.eqb_spec q p) as [E|E]; [tauto|].
    rewrite IH; tauto.
Qed.

(** Saving the same content twice is saving it once. *)
Lemma write_write (p : string) (c : content) (fs : list (string * content)) :
  Fs.write p c (Fs.write p c fs) = Fs.write p c fs.
Proof.
  rewrite (write_old p c (Fs.write p c fs)) by apply in_map_fst_write.
  destruct (in_dec_path p (map fst fs)) as [H|H].
  - rewrite write_old by assumption. apply replace_replace.
  - destruct (write_new p c fs H) as (l1 & l2 & E1 & E2). rewrite E2.
    apply replace_app_new. intros Hin. apply H.
    rewrite E1, map_app. apply in_or_app. now left.
Qed.

Lemma candidates_write_old (dir method p : string) (c : content)
  (fs : list (string * content)) :
  In p (map fst fs) ->
  candidates dir method (Fs.write p c fs) = candidates dir method fs.
Proof.
  intros H. unfold candidates. now rewrite map_fst_write_old.
Qed.

(** A new file that matches enters the list of candidates at some place
    and leaves the order of the others as it was. *)
Lemma candidates_write_new (dir method p : string) (c : content)
  (fs : list (string * content)) :
  ~ In p (map fst fs) ->
  Fs.matches (OsPath.join dir (method ++ "_basis")) p = true ->
  exists pre post,
    candidates dir method fs = (pre ++ post)%list /\
    candidates dir method (Fs.write p c fs) = (pre ++ p :: post)%list.
Proof.
  intros H Hm. destruct (write_new p c fs H) as (l1 & l2 & E1 & E2).
  exists (candidates dir method l1), (candidates dir method l2).
  unfold candidates. rewrite E2, E1, !map_app, !filter_app.
  split; [reflexivity|]. cbn [map fst filter]. now rewrite Hm.
Qed.

(** A file found by the glob sits directly in the directory, as long as the
    method's name has no slash. *)
Lemma matches_in_dir (dir method p : string) :
  PyStr.mem "/" (method ++ "_basis") = false ->
  Fs.matches (OsPath.join dir (method ++ "_basis")) p = true ->
  Fs.matches (OsPath.dir_prefix dir) p = true.
Proof.
  intros Hm. rewrite join_relative.
  2:{ destruct method as [|c m]; [reflexivity|].
      simpl in *. destruct (Ascii.eqb c "/") eqn:E; [discriminate|].
      destruct c as [[] [] [] [] [] [] [] []]; try reflexivity; discriminate. }
  unfold Fs.matches. intros H.
  destruct (PyStr.strip_prefix (_ ++ _) p) as [rest|] eqn:E; [|discriminate].
  apply strip_prefix_sound in E. rewrite append_assoc in E. subst p.
  rewrite strip_prefix_refl, mem_app, Hm. exact H.
Qed.

End PathFacts.

(** ** Arrays *)

Section ArrayFacts.

Context {P : Platform}.

Import Np.

Lemma slice_stop_within (stop : Z) (len : nat) :
  (0 <= stop <= Z.of_nat len)%Z -> slice_stop stop len = Z.to_nat stop.
Proof.
  intros H. unfold slice_stop.
  destruct (stop <? 0)%Z eqn:E; [lia|]. lia.
Qed.

Lemma slice_stop_beyond (stop : Z) (len : nat) :
  (Z.of_nat len <= stop)%Z -> slice_stop stop len = len.
Proof.
  intros H. unfold slice_stop.
  destruct (stop <? 0)%Z eqn:E; lia.
Qed.

(** Inside the slice the entries are those of the array. *)
Lemma item_getitem_slices (D : ndarray) (cols nbf : Z) (i j : nat) :
  (i < slice_stop cols (shape0 D))%nat ->
  (j < slice_stop nbf (shape1 D))%nat ->
  item (getitem_slices D cols nbf) i j = item D i j.
Proof.
  intros Hi Hj. unfold item, getitem_slices. simpl.
  rewrite nth_error_map, nth_error_firstn.
  apply Nat.ltb_lt in Hi. rewrite Hi.
  destruct (nth_error (rows D) i) as [r|]; simpl; [|reflexivity].
  rewrite nth_error_firstn. apply Nat.ltb_lt in Hj. now rewrite Hj.
Qed.

(** Slicing an array no larger than the request gives the array back. *)
Lemma getitem_slices_all (D : ndarray) (cols nbf : Z) :
  wf D ->
  (Z.of_nat (shape0 D) <= cols)%Z ->
  (Z.of_nat (shape1 D) <= nbf)%Z ->
  getitem_slices D cols nbf = D.
Proof.
  intros [Hr Hc] H0 H1. unfold getitem_slices.
  rewrite !slice_stop_beyond by assumption.
  destruct D as [r c rs]. simpl in *. f_equal.
  rewrite firstn_all2 by lia.
  rewrite <- (map_id rs) at 2. apply map_ext_in.
  intros row Hrow. apply firstn_all2.
  rewrite Forall_forall in Hc. rewrite (Hc row Hrow). lia.
Qed.

(** A well-formed array holds an entry at every place within its shape. *)
Lemma item_defined (D : ndarray) (i j : nat) :
  wf D -> (i < shape0 D)%nat -> (j < shape1 D)%nat ->
  exists x, item D i j = Some x.
Proof.
  intros [Hr Hcs] Hi Hj. unfold item.
  destruct (nth_error (rows D) i) as [row|] eqn:Ei.
  - assert (Hrow : List.length row = shape1 D).
    { rewrite Forall_forall in Hcs. apply Hcs. now apply nth_error_In in Ei. }
    destruct (nth_error row j) as [x|] eqn:Ej; [now exists x|].
    apply nth_error_None in Ej. lia.
  - apply nth_error_None in Ei. lia.
Qed.

Lemma in_firstn {A : Type} (n : nat) (l : list A) (x : A) :
  In x (firstn n l) -> In x l.
Proof.
  revert l. induction n as [|n IH]; intros [|a l]; simpl; try tauto.
  intros [H|H]; [now left|right; now apply IH].
Qed.

Lemma getitem_slices_wf (D : ndarray) (cols nbf : Z) :
  wf D -> wf (getitem_slices D cols nbf).
Proof.
  intros [Hr Hc]. unfold wf, getitem_slices, slice_stop. simpl. split.
  - rewrite length_map, length_firstn, Hr.
    destruct (Z.ltb_spec cols 0); lia.
  - rewrite Forall_forall in *. intros row Hrow.
    apply in_map_iff in Hrow. destruct Hrow as (r0 & <- & Hin).
    apply in_firstn in Hin. rewrite length_firstn, (Hc r0 Hin).
    destruct (Z.ltb_spec nbf 0); lia.
Qed.

End ArrayFacts.

(** ** The loop over the files found *)

Section ScanFacts.

Context {P : Platform}.

Variables cols nbf : Z.

Lemma reusable_spec (bf : string) :
  reusable cols bf = true <->
  exists tok n,
    PyStr.getitem_m2 (PyStr.split "_" bf) = Some tok /\
    PyStr.py_int tok = Some n /\ (n >= cols)%Z.
Proof.
  unfold reusable, embedded_size. split.
  - destruct (PyStr.getitem_m2 _) as [tok|]; [|discriminate].
    destruct (PyStr.py_int tok) as [n|] eqn:E; [|discriminate].
    intros H. exists tok, n. repeat split; trivial. lia.
  - intros (tok & n & -> & -> & H). lia.
Qed.

(** Inside a directory the size is read from the file name alone, once the
    name has two separators. *)
Lemma embedded_size_in_dir (p name : string) :
  (3 <= List.length (PyStr.split "_" name))%nat ->
  embedded_size (p ++ name) = embedded_size name.
Proof.
  intros H. unfold embedded_size. now rewrite getitem_m2_split_app.
Qed.

Lemma np_load_found (bf : string) (D : Np.ndarray) (w : world) :
  Fs.lookup bf (files w) = Some (Npy D) ->
  np_load bf w =
  (Returned D, {| files := files w; trace := (trace w ++ [Load bf])%list |}).
Proof.
  intros H. unfold np_load. rewrite H. reflexivity.
Qed.

Lemma np_load_failed (bf : string) (w : world) :
  (forall D, Fs.lookup bf (files w) <> Some (Npy D)) ->
  np_load bf w =
  (Raised (IOError bf),
   {| files := files w; trace := (trace w ++ [LoadFailed bf])%list |}).
Proof.
  intros H. unfold np_load.
  destruct (Fs.lookup bf (files w)) as [[D|]|]; try reflexivity.
  now destruct (H D).
Qed.

Lemma scan_skip (bf : string) (rest : list string) (w : world) :
  too_small cols bf = true ->
  scan_basis_files cols nbf (bf :: rest) w = scan_basis_files cols nbf rest w.
Proof.
  unfold too_small, embedded_size. simpl. unfold bind at 1.
  destruct (PyStr.getitem_m2 _) as [tok|]; [|discriminate]. simpl.
  unfold bind at 1.
  destruct (PyStr.py_int tok) as [n|]; [|discriminate]. simpl.
  intros H. now replace (cols <=? n)%Z with false by lia.
Qed.

Lemma scan_take (bf : string) (rest : list string) (D : Np.ndarray) (w : world) :
  reusable cols bf = true ->
  Fs.lookup bf (files w) = Some (Npy D) ->
  scan_basis_files cols nbf (bf :: rest) w =
  (Returned (Some (Np.getitem_slices D cols nbf)),
   {| files := files w; trace := (trace w ++ [Load bf])%list |}).
Proof.
  unfold reusable, embedded_size. simpl. unfold bind at 1.
  destruct (PyStr.getitem_m2 _) as [tok|]; [|discriminate]. simpl.
  unfold bind at 1.
  destruct (PyStr.py_int tok) as [n|]; [|discriminate]. simpl.
  intros -> HD. unfold bind. now rewrite (np_load_found _ _ _ HD).
Qed.

Lemma scan_miss (bfs : list string) (w : world) :
  forallb (too_small cols) bfs = true ->
  scan_basis_files cols nbf bfs w = (Returned None, w).
Proof.
  induction bfs as [|bf rest IH]; [reflexivity|].
  simpl forallb. intros H. apply andb_prop in H. destruct H as [H1 H2].
  rewrite scan_skip by assumption. now apply IH.
Qed.

Lemma scan_take_unreadable (bf : string) (rest : list string) (w : world) :
  reusable cols bf = true ->
  (forall D, Fs.lookup bf (files w) <> Some (Npy D)) ->
  scan_basis_files cols nbf (bf :: rest) w =
  (Raised (IOError bf),
   {| files := files w; trace := (trace w ++ [LoadFailed bf])%list |}).
Proof.
  unfold reusable, embedded_size. simpl. unfold bind at 1.
  destruct (PyStr.getitem_m2 _) as [tok|]; [|discriminate]. simpl.
  unfold bind at 1.
  destruct (PyStr.py_int tok) as [n|]; [|discriminate]. simpl.
  intros -> HD. unfold bind. now rewrite (np_load_failed _ _ HD).
Qed.

Lemma scan_hit_unreadable (pre post : list string) (bf : string) (w : world) :
  forallb (too_small cols) pre = true ->
  reusable cols bf = true ->
  (forall D, Fs.lookup bf (files w) <> Some (Npy D)) ->
  scan_basis_files cols nbf (pre ++ bf :: post) w =
  (Raised (IOError bf),
   {| files := files w; trace := (trace w ++ [LoadFailed bf])%list |}).
Proof.
  intros Hpre Hbf HD. induction pre as [|g pre IH].
  - now apply scan_take_unreadable.
  - simpl forallb in Hpre. apply andb_prop in Hpre. destruct Hpre as [H1 H2].
    rewrite <- app_comm_cons, scan_skip by assumption. now apply IH.
Qed.

Lemma scan_hit (pre post : list string) (bf : string) (D : Np.ndarray) (w : world) :
  forallb (too_small cols) pre = true ->
  reusable cols bf = true ->
  Fs.lookup bf (files w) = Some (Npy D) ->
  scan_basis_files cols nbf (pre ++ bf :: post) w =
  (Returned (Some (Np.getitem_slices D cols nbf)),
   {| files := files w; trace := (trace w ++ [Load bf])%list |}).
Proof.
  intros Hpre Hbf HD. induction pre as [|g pre IH].
  - now apply scan_take.
  - simpl forallb in Hpre. apply andb_prop in Hpre. destruct Hpre as [H1 H2].
    rewrite <- app_comm_cons, scan_skip by assumption. now apply IH.
Qed.

(** The loop ends in one of three ways. *)
Lemma scan_cases (bfs : list string) :
  (exists bf, first_reusable cols bfs bf) \/
  forallb (too_small cols) bfs = true \/
  (exists e, forall w, scan_basis_files cols nbf bfs w = (Raised e, w)).
Proof.
  induction bfs as [|bf rest IH]; [now right; left|].
  destruct (reusable cols bf) eqn:Hr.
  { left. exists bf, [], rest. now repeat split. }
  destruct (too_small cols bf) eqn:Hs.
  - destruct IH as [(bf' & pre & post & -> & Hpre & Hbf')|[Hall|(e & He)]].
    + left. exists bf', (bf :: pre), post. repeat split; trivial.
      simpl. now rewrite Hs.
    + right; left. simpl. now rewrite Hs.
    + right; right. exists e. intros w. now rewrite scan_skip.
  - right; right. revert Hr Hs. unfold reusable, too_small, embedded_size.
    destruct (PyStr.getitem_m2 _) as [tok|] eqn:Et.
    + destruct (PyStr.py_int tok) as [n|] eqn:En; [intros; lia|].
      intros _ _. exists (ValueError_int tok). intros w.
      simpl. unfold bind at 1. rewrite Et. simpl. unfold bind at 1.
      now rewrite En.
    + intros _ _. exists IndexError. intros w.
      simpl. unfold bind at 1. now rewrite Et.
Qed.

(** A name that does not parse stops the loop, unless a reusable file was
    met first. *)
Lemma scan_raise (pre post : list string) (bf tok : string) :
  Forall (fun p => exists t, PyStr.getitem_m2 (PyStr.split "_" p) = Some t) pre ->
  forallb (fun g => negb (reusable cols g)) pre = true ->
  PyStr.getitem_m2 (PyStr.split "_" bf) = Some tok ->
  PyStr.py_int tok = None ->
  exists t,
    PyStr.py_int t = None /\
    forall w, scan_basis_files cols nbf (pre ++ bf :: post) w
              = (Raised (ValueError_int t), w).
Proof.
  intros Htok Hpre Hbf Hint. induction pre as [|g pre IH].
  - exists tok. split; [assumption|]. intros w.
    simpl. unfold bind at 1. rewrite Hbf. simpl. unfold bind at 1.
    now rewrite Hint.
  - inversion Htok as [|? ? (t & Ht) Htok']; subst.
    simpl forallb in Hpre. apply andb_prop in Hpre. destruct Hpre as [H1 H2].
    destruct (PyStr.py_int t) as [n|] eqn:En.
    + destruct (IH Htok' H2) as (t' & Ht' & Hscan).
      exists t'. split; [assumption|]. intros w.
      rewrite <- app_comm_cons, scan_skip; [apply Hscan|].
      revert H1. unfold reusable, too_small, embedded_size.
      rewrite Ht, En. intros H1. apply negb_true_iff in H1. lia.
    + exists t. split; [assumption|]. intros w.
      simpl. unfold bind at 1. rewrite Ht. simpl. unfold bind at 1.
      now rewrite En.
Qed.

End ScanFacts.

(** ** What the loop reads from the names the function writes *)

Section NameFacts.

Context {P : Platform}.

Lemma mem_underscore_option_value (key : option_key) (o : basis_options_t) :
  key = key_radial_step \/ key = key_clip ->
  PyStr.mem "_" (option_value key o) = false.
Proof.
  intros [->| ->]; simpl.
  - destruct (radial_step o); apply mem_underscore_str_Z.
  - destruct (clip o); apply mem_underscore_str_Z.
Qed.

(** For the three methods of [abel.dasch] the token read is the size the
    file was generated for. *)
Lemma embedded_size_written_dasch (method dir : string) (cols nbf : Z)
  (basis_options : basis_options_t) :
  In method ["onion_peeling"; "three_point"; "two_point"] ->
  embedded_size (OsPath.join dir (basis_name method cols nbf basis_options)) =
  Some cols.
Proof.
  intros Hm.
  assert (E : OsPath.join dir (basis_name method cols nbf basis_options) =
              (OsPath.dir_prefix dir ++ method ++ "_basis")
                ++ String "_" (PyStr.str_Z cols
                                 ++ String "_" (PyStr.str_Z nbf ++ ".npy"))).
  { simpl in Hm. destruct Hm as [<-|[<-|[<-|[]]]];
      unfold basis_name, basis_stem; cbn [String.eqb Ascii.eqb Bool.eqb];
      (rewrite join_relative by reflexivity);
      rewrite !append_assoc; reflexivity. }
  unfold embedded_size. rewrite E, getitem_m2_split_last_two.
  - apply py_int_str_Z.
  - apply mem_underscore_str_Z.
  - rewrite mem_app, mem_underscore_str_Z. reflexivity.
Qed.

(** For [linbasex] the token read is the radial step: the four segments
    added to the name move the size out of the second-to-last place. *)
Lemma embedded_size_written_linbasex (dir : string) (cols nbf : Z)
  (basis_options : basis_options_t) :
  embedded_size (OsPath.join dir (basis_name "linbasex" cols nbf basis_options)) =
  Some (match radial_step basis_options with Some r => r | None => 1%Z end).
Proof.
  set (v3 := option_value key_radial_step basis_options).
  set (v4 := option_value key_clip basis_options).
  assert (E : exists p,
             OsPath.join dir (basis_name "linbasex" cols nbf basis_options) =
             p ++ String "_" (v3 ++ String "_" (v4 ++ ".npy"))).
  { exists (OsPath.dir_prefix dir
            ++ ("linbasex_basis_" ++ PyStr.str_Z cols ++ "_" ++ PyStr.str_Z nbf)
            ++ "_" ++ option_value key_legendre_orders basis_options
            ++ "_" ++ option_value key_proj_angles basis_options).
    unfold basis_name, basis_stem.
    cbn [String.eqb Ascii.eqb Bool.eqb fold_left].
    rewrite join_relative by reflexivity.
    fold v3 v4. rewrite !append_assoc. reflexivity. }
  destruct E as (p & E). unfold embedded_size.
  rewrite E, getitem_m2_split_last_two.
  - unfold v3. simpl. destruct (radial_step basis_options); apply py_int_str_Z.
  - unfold v3. apply mem_underscore_option_value. now left.
  - unfold v4. rewrite mem_app, mem_underscore_option_value by now right.
    reflexivity.
Qed.

(** So a file written for [linbasex] passes the size test according to
    its radial step, and one written for the other methods according to its
    size. *)
Lemma reusable_written_linbasex (dir : string) (cols cols0 nbf0 : Z)
  (stored_options : basis_options_t) :
  reusable cols (OsPath.join dir (basis_name "linbasex" cols0 nbf0 stored_options)) =
  (cols <=? match radial_step stored_options with Some r => r | None => 1 end)%Z.
Proof.
  unfold reusable. now rewrite embedded_size_written_linbasex.
Qed.

Lemma reusable_written_dasch (method dir : string) (cols cols0 nbf0 : Z)
  (stored_options : basis_options_t) :
  In method ["onion_peeling"; "three_point"; "two_point"] ->
  reusable cols (OsPath.join dir (basis_name method cols0 nbf0 stored_options)) =
  (cols <=? cols0)%Z.
Proof.
  intros H. unfold reusable. now rewrite embedded_size_written_dasch.
Qed.

End NameFacts.

(** ** The call as a whole *)

Section CallFacts.

Context {P : Platform}.

Variables _bs_linbasex _bs_onion_peeling _bs_three_point _bs_two_point
  : Z -> basis_options_t -> Np.ndarray.

Local Abbreviation generator_of := (basis_generator
  _bs_linbasex _bs_onion_peeling _bs_three_point _bs_two_point).
Local Abbreviation call := (get_bs_cached
  _bs_linbasex _bs_onion_peeling _bs_three_point _bs_two_point).

Lemma basis_generator_known (method : string) :
  In method known_methods -> exists g, generator_of method = Some g.
Proof.
  unfold known_methods, generator_of, basis_generator. simpl.
  intros [<-|[<-|[<-|[<-|[]]]]]; simpl; eauto.
Qed.

Lemma basis_generator_unknown (method : string) :
  ~ In method known_methods -> generator_of method = None.
Proof.
  unfold known_methods, generator_of, basis_generator. simpl. intros H.
  repeat match goal with
  | |- context [String.eqb method ?s] =>
      destruct (String.eqb_spec method s); [subst; tauto|]
  end.
  reflexivity.
Qed.

(** The table of the function, entry by entry. *)
Lemma basis_generator_table (method : string)
  (g : Z -> basis_options_t -> Np.ndarray) :
  generator_of method = Some g ->
  In (method, g)
     [("linbasex", _bs_linbasex); ("onion_peeling", _bs_onion_peeling);
      ("three_point", _bs_three_point); ("two_point", _bs_two_point)].
Proof.
  unfold basis_generator. intros H.
  repeat match type of H with
  | context [String.eqb method ?s] =>
      destruct (String.eqb_spec method s);
        [subst; inversion H; subst; simpl; tauto|]
  end.
  discriminate.
Qed.

(** Past the memory slot and the check of the method, a call with a
    directory is the glob, the loop, and what follows from the loop. *)
Lemma call_with_dir (method dir : string) (cols nbf : Z)
  (cached_basis : option (option Np.ndarray * option string))
  (basis_options : basis_options_t) (g : Z -> basis_options_t -> Np.ndarray)
  (fs : list (string * content)) :
  memory_cached cached_basis method cols = None ->
  generator_of method = Some g ->
  let stem := OsPath.join dir (method ++ "_basis") in
  run (call method cols nbf (Some dir) cached_basis basis_options) fs =
  match scan_basis_files cols nbf (candidates dir method fs)
          {| files := fs; trace := [Glob (stem ++ "*")] |} with
  | (Returned (Some D), w) => (Returned D, w)
  | (Returned None, w) =>
      let D := g cols basis_options in
      let path := OsPath.join dir (basis_name method cols nbf basis_options) in
      (Returned D,
       {| files := Fs.write path (Npy D) (files w);
          trace := ((trace w ++ [Generate method cols]) ++ [Save path])%list |})
  | (Raised e, w) => (Raised e, w)
  end.
Proof.
  intros Hm Hg stem. unfold run, call, get_bs_cached.
  fold generator_of. rewrite Hm, Hg. simpl or_raise.
  unfold bind at 1. unfold ret at 1.
  unfold bind at 1. unfold bind at 1. unfold glob_glob, bind at 1. simpl.
  fold stem. fold (candidates dir method fs).
  destruct (scan_basis_files _ _ _ _) as [[[D|]|e] w]; reflexivity.
Qed.

Lemma call_without_dir (method : string) (cols nbf : Z)
  (cached_basis : option (option Np.ndarray * option string))
  (basis_options : basis_options_t) (g : Z -> basis_options_t -> Np.ndarray)
  (fs : list (string * content)) :
  memory_cached cached_basis method cols = None ->
  generator_of method = Some g ->
  run (call method cols nbf None cached_basis basis_options) fs =
  (Returned (g cols basis_options),
   {| files := fs; trace := [Generate method cols] |}).
Proof.
  intros Hm Hg. unfold run, call, get_bs_cached.
  fold generator_of. rewrite Hm, Hg. reflexivity.
Qed.

End CallFacts.

(** * The specification against the code *)

Section Specification.

Context {P : Platform}.

Variables _bs_linbasex _bs_onion_peeling _bs_three_point _bs_two_point
  : Z -> basis_options_t -> Np.ndarray.

Local Abbreviation generator_of := (basis_generator
  _bs_linbasex _bs_onion_peeling _bs_three_point _bs_two_point).
Local Abbreviation call := (get_bs_cached
  _bs_linbasex _bs_onion_peeling _bs_three_point _bs_two_point).

(** C1, as the code has it. In the disk scan the size of a candidate is
    read from the second-to-last ['_']-token of its path and the candidate
    passes when that number is at least the requested size. The file the
    call loads is the first one in listing order that passes, not the best
    fit, provided the token of every candidate listed before it parses, to a
    smaller number: a path that holds an array is the first to pass in this
    sense exactly when the call loads that file and no other and returns its
    leading block. *)
Theorem C1_first_match_is_loaded (method dir : string) (cols nbf : Z)
  (cached_basis : option (option Np.ndarray * option string))
  (basis_options : basis_options_t) (fs : list (string * content)) :
  memory_cached cached_basis method cols = None ->
  In method known_methods ->
  forall bf D,
    Fs.lookup bf fs = Some (Npy D) ->
    (first_reusable cols (candidates dir method fs) bf <->
     run (call method cols nbf (Some dir) cached_basis basis_options) fs =
     (Returned (Np.getitem_slices D cols nbf),
      {| files := fs;
         trace := [Glob (OsPath.join dir (method ++ "_basis") ++ "*"); Load bf] |})).
Proof.
  intros Hm Hk bf D HD.
  destruct (basis_generator_known _bs_linbasex _bs_onion_peeling
              _bs_three_point _bs_two_point method Hk) as (g & Hg).
  pose proof (call_with_dir _bs_linbasex _bs_onion_peeling _bs_three_point
                _bs_two_point method dir cols nbf cached_basis basis_options
                g fs Hm Hg) as Hcall.
  cbv zeta in Hcall. split.
  - intros (pre & post & Hc & Hpre & Hbf).
    rewrite Hcall, Hc.
    now rewrite (scan_hit cols nbf pre post bf D (mk_world fs _) Hpre Hbf HD).
  - intros Hrun.
    destruct (scan_cases cols nbf (candidates dir method fs))
      as [(bf' & Hbf')|[Hall|(e & He)]].
    + pose proof Hbf' as (pre & post & Hc & Hpre & Hr).
      rewrite Hcall, Hc in Hrun.
      destruct (Fs.lookup bf' fs) as [[D'|]|] eqn:E.
      * rewrite (scan_hit cols nbf pre post bf' D' (mk_world fs _) Hpre Hr E)
          in Hrun.
        inversion Hrun; subst. exact Hbf'.
      * rewrite (scan_hit_unreadable cols nbf pre post bf' (mk_world fs _) Hpre Hr)
          in Hrun; [discriminate|].
        cbn [files]. intros D'. rewrite E. discriminate.
      * rewrite (scan_hit_unreadable cols nbf pre post bf' (mk_world fs _) Hpre Hr)
          in Hrun; [discriminate|].
        cbn [files]. intros D'. rewrite E. discriminate.
    + rewrite Hcall, (scan_miss cols nbf _ _ Hall) in Hrun. discriminate.
    + rewrite Hcall, He in Hrun. discriminate.
Qed.

(** C2, as the code has it. A method outside the four known ones makes the
    call fail with the error of line 69, nothing generated and the disk not
    touched, unless the memory slot answers first: the slot is consulted
    before the method is checked. *)
Theorem C2_unknown_method_rejected (method : string) (cols nbf : Z)
  (basis_dir : option string)
  (cached_basis : option (option Np.ndarray * option string))
  (basis_options : basis_options_t) (w : world) :
  ~ In method known_methods ->
  memory_cached cached_basis method cols = None ->
  call method cols nbf basis_dir cached_basis basis_options w =
  (Raised (ValueError_method method), w).
Proof.
  intros Hk Hm. unfold call, get_bs_cached. rewrite Hm.
  now rewrite (basis_generator_unknown _bs_linbasex _bs_onion_peeling
                 _bs_three_point _bs_two_point method Hk).
Qed.

(** C7. A memory slot holding an array with at least [cols] rows, recorded
    for the requested method, is returned as it is: rows and columns are not
    trimmed, the options play no part, and the world (files and trace) is
    left as it was, so nothing is read, written or generated. *)
Theorem C7_memory_slot_short_circuit (method _method : string) (cols nbf : Z)
  (basis_dir : option string) (_basis : Np.ndarray)
  (basis_options : basis_options_t) (w : world) :
  _method = method ->
  (Z.of_nat (Np.shape0 _basis) >= cols)%Z ->
  call method cols nbf basis_dir (Some (Some _basis, Some _method)) basis_options w =
  (Returned _basis, w).
Proof.
  intros -> H. unfold call, get_bs_cached, memory_cached.
  rewrite String.eqb_refl.
  now replace (cols <=? Z.of_nat (Np.shape0 _basis))%Z with true by lia.
Qed.

(** C9. Whenever a call generates, what it returns is the output of the
    generator of its method (the one the table of the function names for
    it) on [cols] and the options, whatever [nbf] is: no column is cut. With
    a directory the array has been saved under the derived name first, and
    no other path has changed; without one no file is written. *)
Theorem C9_generated_returned_untrimmed (method : string) (cols nbf : Z)
  (basis_dir : option string)
  (cached_basis : option (option Np.ndarray * option string))
  (basis_options : basis_options_t) (fs : list (string * content)) :
  let r := run (call method cols nbf basis_dir cached_basis basis_options) fs in
  In (Generate method cols) (trace (snd r)) ->
  exists g,
    In (method, g)
       [("linbasex", _bs_linbasex); ("onion_peeling", _bs_onion_peeling);
        ("three_point", _bs_three_point); ("two_point", _bs_two_point)] /\
    fst r = Returned (g cols basis_options) /\
    match basis_dir with
    | Some dir =>
        let path := OsPath.join dir (basis_name method cols nbf basis_options) in
        trace (snd r) = [Glob (OsPath.join dir (method ++ "_basis") ++ "*");
                         Generate method cols; Save path] /\
        Fs.lookup path (files (snd r)) = Some (Npy (g cols basis_options)) /\
        forall q, q <> path -> Fs.lookup q (files (snd r)) = Fs.lookup q fs
    | None => snd r = {| files := fs; trace := [Generate method cols] |}
    end.
Proof.
  intros r. subst r.
  destruct (memory_cached cached_basis method cols) as [B|] eqn:Hm.
  { unfold run, get_bs_cached. rewrite Hm. simpl. tauto. }
  destruct (generator_of method) as [g|] eqn:Hg.
  2:{ unfold run, get_bs_cached. rewrite Hm, Hg. simpl. tauto. }
  intros H. exists g. split; [now apply basis_generator_table|].
  destruct basis_dir as [dir|].
  - pose proof (call_with_dir _bs_linbasex _bs_onion_peeling _bs_three_point
                  _bs_two_point method dir cols nbf cached_basis basis_options
                  g fs Hm Hg) as Hcall.
    cbv zeta in Hcall. rewrite Hcall in H |- *.
    destruct (scan_cases cols nbf (candidates dir method fs))
      as [(bf & pre & post & Hc & Hpre & Hbf)|[Hall|(e & He)]].
    + exfalso. rewrite Hc in H.
      destruct (Fs.lookup bf fs) as [[D|]|] eqn:E.
      * rewrite (scan_hit cols nbf pre post bf D (mk_world fs _) Hpre Hbf E) in H.
        simpl in H. destruct H as [H|[H|[]]]; discriminate.
      * rewrite (scan_hit_unreadable cols nbf pre post bf (mk_world fs _) Hpre Hbf)
          in H.
        -- simpl in H. destruct H as [H|[H|[]]]; discriminate.
        -- cbn [files]. intros D. rewrite E. discriminate.
      * rewrite (scan_hit_unreadable cols nbf pre post bf (mk_world fs _) Hpre Hbf)
          in H.
        -- simpl in H. destruct H as [H|[H|[]]]; discriminate.
        -- cbn [files]. intros D. rewrite E. discriminate.
    + rewrite (scan_miss cols nbf _ _ Hall). cbn [fst snd files trace app].
      split; [reflexivity|]. split; [reflexivity|].
      split; [apply lookup_write|].
      intros q Hq. now apply lookup_write_other.
    + exfalso. rewrite He in H. simpl in H. destruct H as [H|[]]; discriminate.
  - rewrite (call_without_dir _bs_linbasex _bs_onion_peeling _bs_three_point
               _bs_two_point method cols nbf cached_basis basis_options g fs Hm Hg).
    now split.
Qed.

(** C10, as the code has it. The lookup is not total over what a
    directory may hold. When a file matched by the glob has a second-to-last
    token that [int] rejects, and no file listed before it passes the size
    test, the call raises the error of [int] in the loop: no file is loaded,
    nothing is generated or saved. ([int] rejects less than "not a run of
    digits": it takes white space around the number and a sign, see
    [ascii_int_rejects].) *)
Theorem C10_unparsable_name_raises (method dir : string) (cols nbf : Z)
  (cached_basis : option (option Np.ndarray * option string))
  (basis_options : basis_options_t) (fs : list (string * content))
  (pre post : list string) (bf tok : string) :
  memory_cached cached_basis method cols = None ->
  In method known_methods ->
  candidates dir method fs = (pre ++ bf :: post)%list ->
  forallb (fun g => negb (reusable cols g)) pre = true ->
  PyStr.getitem_m2 (PyStr.split "_" bf) = Some tok ->
  PyStr.py_int tok = None ->
  exists t,
    PyStr.py_int t = None /\
    run (call method cols nbf (Some dir) cached_basis basis_options) fs =
    (Raised (ValueError_int t),
     {| files := fs;
        trace := [Glob (OsPath.join dir (method ++ "_basis") ++ "*")] |}).
Proof.
  intros Hm Hk Hc Hpre Htok Hint.
  destruct (basis_generator_known _bs_linbasex _bs_onion_peeling
              _bs_three_point _bs_two_point method Hk) as (g & Hg).
  assert (Hall : Forall (fun p => exists t,
                           PyStr.getitem_m2 (PyStr.split "_" p) = Some t) pre).
  { apply Forall_forall. intros p Hp.
    assert (H : In p (candidates dir method fs))
      by (rewrite Hc; apply in_or_app; now left).
    unfold candidates in H. apply filter_In in H.
    now apply (matches_has_token dir method). }
  destruct (scan_raise cols nbf pre post bf tok Hall Hpre Htok Hint)
    as (t & Ht & Hscan).
  exists t. split; [assumption|].
  pose proof (call_with_dir _bs_linbasex _bs_onion_peeling _bs_three_point
                _bs_two_point method dir cols nbf cached_basis basis_options
                g fs Hm Hg) as Hcall.
  cbv zeta in Hcall.
  now rewrite Hcall, Hc, Hscan.
Qed.

(** C4, as the code has it. The projection-angles segment is the
    concatenation of the angles, each multiplied by 100, divided by pi and
    cut to an integer: it counts hundredths of pi, not degrees. For angles
    at 0, 45, 90 and 135 degrees it is "0255075"; when the option is absent
    it is "050". *)
Theorem C4_proj_angles_segment (lo : option (list Z)) (rs cl : option Z)
  (angles : list float) :
  option_value key_proj_angles (mk_options lo (Some angles) rs cl) =
    PyStr.join
      (map (fun a => PyStr.str_Z (Np.astype_int (a * 100 / Np.pi)%float)) angles)
  /\ option_value key_proj_angles (mk_options lo (Some angles_0_45_90_135) rs cl) =
     "0255075"
  /\ option_value key_proj_angles (mk_options lo None rs cl) = "050".
Proof.
  split; [|split].
  - unfold option_value, proj_angles_fractpi. simpl. now rewrite !map_map.
  - vm_compute. reflexivity.
  - reflexivity.
Qed.

(** C8. With no options at all the name derived for [linbasex] ends in
    [_02_050_1_0] (before the extension), the four defaults in their fixed
    order, whatever the sizes; and a call with no options is not turned
    down: with nothing cached it generates. *)
Theorem C8_linbasex_defaults (cols nbf : Z) (fs : list (string * content)) :
  basis_stem "linbasex" cols nbf no_options =
    ("linbasex_basis_" ++ PyStr.str_Z cols ++ "_" ++ PyStr.str_Z nbf) ++ "_02_050_1_0"
  /\ basis_name "linbasex" cols nbf no_options =
     ("linbasex_basis_" ++ PyStr.str_Z cols ++ "_" ++ PyStr.str_Z nbf)
       ++ "_02_050_1_0" ++ ".npy"
  /\ run (call "linbasex" cols nbf None None no_options) fs =
     (Returned (_bs_linbasex cols no_options),
      {| files := fs; trace := [Generate "linbasex" cols] |}).
Proof.
  assert (H : basis_stem "linbasex" cols nbf no_options =
              ("linbasex_basis_" ++ PyStr.str_Z cols ++ "_" ++ PyStr.str_Z nbf)
                ++ "_02_050_1_0").
  { unfold basis_stem. cbn [String.eqb Ascii.eqb Bool.eqb fold_left].
    cbn [option_value no_options legendre_orders proj_angles radial_step clip default].
    change (PyStr.str_Z 1) with "1". change (PyStr.str_Z 0) with "0".
    rewrite !append_assoc. reflexivity. }
  split; [|split].
  - exact H.
  - unfold basis_name. rewrite H. now rewrite !append_assoc.
  - reflexivity.
Qed.

(** C5. With a single file in the directory, a well-formed 200 by 200
    array stored under the name of [onion_peeling] for size 200, a request
    for size 150 and 150 basis functions loads that file, generates nothing,
    and returns an array of exactly 150 rows of 150 entries each, which are
    the entries of the first 150 rows and columns of the stored one. *)
Theorem C5_reuse_of_larger_artifact (dir : string)
  (basis_options stored_options : basis_options_t) (D : Np.ndarray) :
  Np.wf D ->
  Np.shape D = (200, 200)%nat ->
  let path := OsPath.join dir (basis_name "onion_peeling" 200 200 stored_options) in
  let R := Np.getitem_slices D 150 150 in
  run (call "onion_peeling" 150 150 (Some dir) None basis_options) [(path, Npy D)] =
    (Returned R,
     {| files := [(path, Npy D)];
        trace := [Glob (OsPath.join dir "onion_peeling_basis" ++ "*"); Load path] |})
  /\ Np.shape R = (150, 150)%nat
  /\ List.length (Np.rows R) = 150%nat
  /\ Forall (fun row => List.length row = 150%nat) (Np.rows R)
  /\ forall i j, (i < 150)%nat -> (j < 150)%nat ->
       exists x, Np.item R i j = Some x /\ Np.item D i j = Some x.
Proof.
  intros Hwf HD path R.
  assert (H0 : Np.shape0 D = 200%nat) by (now inversion HD).
  assert (H1 : Np.shape1 D = 200%nat) by (now inversion HD).
  assert (Hp : path = OsPath.dir_prefix dir ++ "onion_peeling_basis_200_200.npy")
    by reflexivity.
  assert (Hc : candidates dir "onion_peeling" [(path, Npy D)] = [path]).
  { unfold candidates. cbn [map fst filter]. rewrite join_relative by reflexivity.
    unfold Fs.matches. rewrite Hp.
    change "onion_peeling_basis_200_200.npy"
      with (("onion_peeling" ++ "_basis") ++ "_200_200.npy").
    rewrite strip_prefix_app. reflexivity. }
  assert (Hr : reusable 150 path = true).
  { unfold reusable. rewrite Hp, embedded_size_in_dir; [reflexivity|].
    vm_compute. lia. }
  assert (Hs : Np.shape R = (150, 150)%nat).
  { unfold R, Np.shape, Np.getitem_slices. simpl. rewrite H0, H1. reflexivity. }
  assert (HwfR : Np.wf R) by (now apply getitem_slices_wf).
  assert (Hs0 : Np.shape0 R = 150%nat) by (now inversion Hs).
  assert (Hs1 : Np.shape1 R = 150%nat) by (now inversion Hs).
  split; [|split; [exact Hs|split; [|split]]].
  - pose proof (call_with_dir _bs_linbasex _bs_onion_peeling _bs_three_point
                  _bs_two_point "onion_peeling" dir 150 150 None basis_options
                  _bs_onion_peeling [(path, Npy D)] eq_refl eq_refl) as Hcall.
    cbv zeta in Hcall. rewrite Hcall, Hc.
    rewrite (scan_take 150 150 path [] D (mk_world [(path, Npy D)] _) Hr).
    + reflexivity.
    + simpl. now rewrite String.eqb_refl.
  - destruct HwfR as [Hl _]. now rewrite Hl.
  - destruct HwfR as [_ Hl]. now rewrite Hs1 in Hl.
  - intros i j Hi Hj.
    destruct (item_defined D i j Hwf) as (x & Hx); [lia|lia|].
    exists x. split; [|exact Hx].
    rewrite <- Hx. apply item_getitem_slices.
    + rewrite H0. exact Hi.
    + rewrite H1. exact Hj.
Qed.

(** C6. For [two_point] with size 64 and 64 basis functions, a directory
    that is empty at first, and a generator that returns a 64 by 64 array:
    the first call generates the array and saves it; a second call with the
    same arguments finds the file, loads it, and returns the very same
    array, generating nothing. *)
Theorem C6_round_trip_persistence (dir : string)
  (cached_basis : option (option Np.ndarray * option string))
  (basis_options : basis_options_t) (fs : list (string * content)) :
  let G := _bs_two_point 64 basis_options in
  let path := OsPath.join dir (basis_name "two_point" 64 64 basis_options) in
  let pattern := OsPath.join dir "two_point_basis" ++ "*" in
  let get := call "two_point" 64 64 (Some dir) cached_basis basis_options in
  memory_cached cached_basis "two_point" 64 = None ->
  listdir dir fs = [] ->
  Np.wf G ->
  Np.shape G = (64, 64)%nat ->
  exists w1,
    run get fs = (Returned G, w1) /\
    trace w1 = [Glob pattern; Generate "two_point" 64; Save path] /\
    run get (files w1) =
      (Returned G, {| files := files w1; trace := [Glob pattern; Load path] |}).
Proof.
  intros G path pattern get Hm Hdir Hwf Hshape.
  assert (H0 : Np.shape0 G = 64%nat) by (now inversion Hshape).
  assert (H1 : Np.shape1 G = 64%nat) by (now inversion Hshape).
  assert (Hp : path = OsPath.dir_prefix dir ++ "two_point_basis_64_64.npy")
    by reflexivity.
  pose proof (proj1 (filter_nil_iff _ _) Hdir) as Hnone.
  assert (Hc : candidates dir "two_point" fs = []).
  { apply filter_nil_iff. intros x Hx.
    destruct (Fs.matches (OsPath.join dir ("two_point" ++ "_basis")) x) eqn:E;
      [|reflexivity].
    apply matches_in_dir in E; [|reflexivity].
    rewrite (Hnone x Hx) in E. discriminate. }
  assert (Hnew : ~ In path (map fst fs)).
  { intros Hin. specialize (Hnone path Hin).
    unfold Fs.matches in Hnone. rewrite Hp, strip_prefix_refl in Hnone.
    discriminate. }
  assert (Hmatch : Fs.matches (OsPath.join dir ("two_point" ++ "_basis")) path = true).
  { rewrite join_relative by reflexivity. unfold Fs.matches. rewrite Hp.
    change "two_point_basis_64_64.npy"
      with (("two_point" ++ "_basis") ++ "_64_64.npy").
    rewrite strip_prefix_app. reflexivity. }
  assert (Hc' : candidates dir "two_point" (Fs.write path (Npy G) fs) = [path]).
  { destruct (candidates_write_new dir "two_point" path (Npy G) fs Hnew Hmatch)
      as (pre & post & E1 & E2).
    rewrite Hc in E1. symmetry in E1. apply app_eq_nil in E1.
    destruct E1 as [-> ->]. exact E2. }
  assert (Hr : reusable 64 path = true).
  { unfold reusable. rewrite Hp, embedded_size_in_dir; [reflexivity|].
    vm_compute. lia. }
  pose proof (call_with_dir _bs_linbasex _bs_onion_peeling _bs_three_point
                _bs_two_point "two_point" dir 64 64 cached_basis basis_options
                _bs_two_point) as Hcall.
  cbv zeta in Hcall. fold call in Hcall. fold get in Hcall.
  exists {| files := Fs.write path (Npy G) fs;
            trace := [Glob pattern; Generate "two_point" 64; Save path] |}.
  split; [|split].
  - rewrite (Hcall fs Hm eq_refl), Hc. reflexivity.
  - reflexivity.
  - cbn [files]. rewrite (Hcall _ Hm eq_refl), Hc'.
    rewrite (scan_take 64 64 path [] G (mk_world (Fs.write path (Npy G) fs) _) Hr).
    + rewrite getitem_slices_all; [reflexivity|assumption|lia|lia].
    + apply lookup_write.
Qed.

End Specification.

(** ** Concrete calls *)

Section Runs.

Local Existing Instance Sample.platform.

Import Sample.

(** Three files are listed for [two_point], of sizes 1, 3 and 2. A request
    for size 2 skips the first and is served from the second, although the
    third fits exactly. *)
Lemma C1_first_match_witness :
  memory_cached None "two_point" 2 = None /\
  In "two_point" known_methods /\
  Fs.lookup "./two_point_basis_3_3.npy" dot_files = Some (Npy (zeros 3 3)) /\
  first_reusable 2 (candidates "." "two_point" dot_files) "./two_point_basis_3_3.npy" /\
  run (Sample.get_bs_cached "two_point" 2 2 (Some ".") None no_options) dot_files =
  (Returned (Np.getitem_slices (zeros 3 3) 2 2),
   {| files := dot_files;
      trace := [Glob "./two_point_basis*"; Load "./two_point_basis_3_3.npy"] |}).
Proof.
  assert (Hm : memory_cached None "two_point" 2 = None) by reflexivity.
  assert (Hk : In "two_point" known_methods) by (simpl; tauto).
  assert (Hl : Fs.lookup "./two_point_basis_3_3.npy" dot_files =
               Some (Npy (zeros 3 3))) by reflexivity.
  assert (Hf : first_reusable 2 (candidates "." "two_point" dot_files)
                 "./two_point_basis_3_3.npy").
  { exists ["./two_point_basis_1_1.npy"], ["./two_point_basis_2_2.npy"].
    split; [reflexivity|]. split; reflexivity. }
  split; [exact Hm|]. split; [exact Hk|]. split; [exact Hl|]. split; [exact Hf|].
  exact (proj1 (C1_first_match_is_loaded generator generator generator generator
                  "two_point" "." 2 2 None no_options dot_files Hm Hk
                  "./two_point_basis_3_3.npy" (zeros 3 3) Hl) Hf).
Defined.

(** Of the three candidates listed, the third is the first whose size is at
    least 2; the second has no size in its name. The call does not load the
    third: it raises at the second. *)
Lemma C1_counterexample :
  candidates "." "two_point" odd_files =
    ["./two_point_basis_1_1.npy"; "./two_point_basis_old.npy";
     "./two_point_basis_9_9.npy"] /\
  map (reusable 2)
    ["./two_point_basis_1_1.npy"; "./two_point_basis_old.npy";
     "./two_point_basis_9_9.npy"] = [false; false; true] /\
  Fs.lookup "./two_point_basis_9_9.npy" odd_files = Some (Npy (zeros 9 9)) /\
  run (Sample.get_bs_cached "two_point" 2 2 (Some ".") None no_options) odd_files =
  (Raised (ValueError_int "basis"),
   {| files := odd_files; trace := [Glob "./two_point_basis*"] |}).
Proof.
  split; [reflexivity|]. split; [reflexivity|]. split; reflexivity.
Qed.

Lemma zeros_wf (r c : nat) : Np.wf (zeros r c).
Proof.
  unfold Np.wf, zeros. simpl. split.
  - apply repeat_length.
  - apply Forall_forall. intros row H. apply repeat_spec in H. subst row.
    apply repeat_length.
Qed.

Lemma C2_unknown_method_witness :
  ~ In "nonexistent_method" known_methods /\
  memory_cached None "nonexistent_method" 64 = None /\
  Sample.get_bs_cached "nonexistent_method" 64 64 (Some ".") None no_options
    {| files := dot_files; trace := [] |} =
  (Raised (ValueError_method "nonexistent_method"),
   {| files := dot_files; trace := [] |}).
Proof.
  assert (Hk : ~ In "nonexistent_method" known_methods).
  { simpl. intros [H|[H|[H|[H|[]]]]]; discriminate. }
  split; [exact Hk|]. split; [reflexivity|].
  exact (C2_unknown_method_rejected generator generator generator generator
           "nonexistent_method" 64 64 (Some ".") None no_options
           {| files := dot_files; trace := [] |} Hk eq_refl).
Defined.

(** A slot recorded for the very name asked for answers before the name is
    checked: the call returns the slot's array instead of failing. *)
Lemma C2_counterexample :
  ~ In "nonexistent_method" known_methods /\
  run (Sample.get_bs_cached "nonexistent_method" 2 2 (Some ".")
         (Some (Some (zeros 2 2), Some "nonexistent_method")) no_options) [] =
  (Returned (zeros 2 2), {| files := []; trace := [] |}) /\
  forall e,
    fst (run (Sample.get_bs_cached "nonexistent_method" 2 2 (Some ".")
                (Some (Some (zeros 2 2), Some "nonexistent_method")) no_options) [])
    <> Raised e.
Proof.
  split; [|split].
  - simpl. intros [H|[H|[H|[H|[]]]]]; discriminate.
  - reflexivity.
  - intros e. vm_compute. discriminate.
Qed.

(** C3, at an input where it fails. The stored artifact was generated for
    [linbasex] with size 2 and radial step 5. A later request for size 4
    with default options reads the 5 of the radial step as a size, loads the
    file, and returns its two rows: the option suffixes differ, the artifact
    has fewer rows than asked for, and the result does not have the
    requested shape. *)
Theorem C3_linbasex_reuse_ignores_suffix :
  let w1 := snd (run (Sample.get_bs_cached "linbasex" 2 2 (Some ".") None step_5) []) in
  files w1 = [("./linbasex_basis_2_2_02_050_5_0.npy", Npy (zeros 2 2))] /\
  basis_name "linbasex" 4 4 no_options = "linbasex_basis_4_4_02_050_1_0.npy" /\
  embedded_size "./linbasex_basis_2_2_02_050_5_0.npy" = Some 5%Z /\
  run (Sample.get_bs_cached "linbasex" 4 4 (Some ".") None no_options) (files w1) =
  (Returned (zeros 2 2),
   {| files := files w1;
      trace := [Glob "./linbasex_basis*";
                Load "./linbasex_basis_2_2_02_050_5_0.npy"] |}).
Proof.
  vm_compute. repeat split.
Qed.

(** Read as degrees the angles would give "04590135"; the code gives
    hundredths of pi. *)
Lemma C4_counterexample :
  option_value key_proj_angles
    {| legendre_orders := None; proj_angles := Some angles_0_45_90_135;
       radial_step := None; clip := None |} <> "04590135".
Proof.
  vm_compute. discriminate.
Qed.

Lemma C5_reuse_witness :
  Np.wf (zeros 200 200) /\
  Np.shape (zeros 200 200) = (200, 200)%nat /\
  run (Sample.get_bs_cached "onion_peeling" 150 150 (Some "basis") None no_options)
    [("basis/onion_peeling_basis_200_200.npy", Npy (zeros 200 200))] =
  (Returned (Np.getitem_slices (zeros 200 200) 150 150),
   {| files := [("basis/onion_peeling_basis_200_200.npy", Npy (zeros 200 200))];
      trace := [Glob "basis/onion_peeling_basis*";
                Load "basis/onion_peeling_basis_200_200.npy"] |}) /\
  List.length (Np.rows (Np.getitem_slices (zeros 200 200) 150 150)) = 150%nat.
Proof.
  split; [apply zeros_wf|]. split; [reflexivity|].
  destruct (C5_reuse_of_larger_artifact generator generator generator generator
              "basis" no_options no_options (zeros 200 200) (zeros_wf 200 200)
              eq_refl) as (Hrun & _ & Hlen & _).
  split; [exact Hrun|exact Hlen].
Defined.

Lemma C6_round_trip_witness :
  memory_cached None "two_point" 64 = None /\
  listdir "basis" [] = [] /\
  Np.wf (generator 64 no_options) /\
  Np.shape (generator 64 no_options) = (64, 64)%nat /\
  exists w1,
    run (Sample.get_bs_cached "two_point" 64 64 (Some "basis") None no_options) [] =
      (Returned (generator 64 no_options), w1) /\
    trace w1 = [Glob "basis/two_point_basis*"; Generate "two_point" 64;
                Save "basis/two_point_basis_64_64.npy"] /\
    run (Sample.get_bs_cached "two_point" 64 64 (Some "basis") None no_options)
      (files w1) =
      (Returned (generator 64 no_options),
       {| files := files w1;
          trace := [Glob "basis/two_point_basis*";
                    Load "basis/two_point_basis_64_64.npy"] |}).
Proof.
  split; [reflexivity|]. split; [reflexivity|].
  split; [apply zeros_wf|]. split; [reflexivity|].
  exact (C6_round_trip_persistence generator generator generator generator
           "basis" None no_options [] eq_refl eq_refl
           (zeros_wf 64 64) eq_refl).
Defined.

Lemma C7_memory_slot_witness :
  "two_point" = "two_point" /\
  (Z.of_nat (Np.shape0 (zeros 3 3)) >= 2)%Z /\
  Sample.get_bs_cached "two_point" 2 1 (Some ".")
    (Some (Some (zeros 3 3), Some "two_point")) no_options
    {| files := dot_files; trace := [] |} =
  (Returned (zeros 3 3), {| files := dot_files; trace := [] |}).
Proof.
  assert (H : (Z.of_nat (Np.shape0 (zeros 3 3)) >= 2)%Z) by (simpl; lia).
  split; [reflexivity|]. split; [exact H|].
  exact (C7_memory_slot_short_circuit generator generator generator generator
           "two_point" "two_point" 2 1 (Some ".") (zeros 3 3) no_options
           {| files := dot_files; trace := [] |} eq_refl H).
Defined.

(** None of the three files is large enough for size 5: the call generates,
    saves, and returns all five columns although one was asked for. *)
Lemma C9_generated_witness :
  In (Generate "two_point" 5)
     (trace (snd (run (Sample.get_bs_cached "two_point" 5 1 (Some ".") None no_options)
                    dot_files))) /\
  exists g,
    In ("two_point", g)
       [("linbasex", generator); ("onion_peeling", generator);
        ("three_point", generator); ("two_point", generator)] /\
    fst (run (Sample.get_bs_cached "two_point" 5 1 (Some ".") None no_options)
           dot_files) = Returned (g 5%Z no_options) /\
    trace (snd (run (Sample.get_bs_cached "two_point" 5 1 (Some ".") None no_options)
                  dot_files)) =
      [Glob "./two_point_basis*"; Generate "two_point" 5;
       Save "./two_point_basis_5_1.npy"] /\
    Fs.lookup "./two_point_basis_5_1.npy"
      (files (snd (run (Sample.get_bs_cached "two_point" 5 1 (Some ".") None
                          no_options) dot_files))) = Some (Npy (g 5%Z no_options)) /\
    forall q, q <> "./two_point_basis_5_1.npy" ->
      Fs.lookup q
        (files (snd (run (Sample.get_bs_cached "two_point" 5 1 (Some ".") None
                            no_options) dot_files))) = Fs.lookup q dot_files.
Proof.
  assert (H : In (Generate "two_point" 5)
                (trace (snd (run (Sample.get_bs_cached "two_point" 5 1 (Some ".")
                                    None no_options) dot_files)))).
  { vm_compute. right. left. reflexivity. }
  split; [exact H|].
  exact (C9_generated_returned_untrimmed generator generator generator generator
           "two_point" 5 1 (Some ".") None no_options dot_files H).
Defined.

(** The second file listed has no size in its name; the request for size 2
    stops there although the third file would do. *)
Lemma C10_unparsable_name_witness :
  memory_cached None "two_point" 2 = None /\
  In "two_point" known_methods /\
  candidates "." "two_point" odd_files =
    (["./two_point_basis_1_1.npy"] ++
     "./two_point_basis_old.npy" :: ["./two_point_basis_9_9.npy"])%list /\
  forallb (fun g => negb (reusable 2 g)) ["./two_point_basis_1_1.npy"] = true /\
  PyStr.getitem_m2 (PyStr.split "_" "./two_point_basis_old.npy") = Some "basis" /\
  PyStr.py_int "basis" = None /\
  exists t,
    PyStr.py_int t = None /\
    run (Sample.get_bs_cached "two_point" 2 2 (Some ".") None no_options) odd_files =
    (Raised (ValueError_int t),
     {| files := odd_files; trace := [Glob "./two_point_basis*"] |}).
Proof.
  assert (Hk : In "two_point" known_methods) by (simpl; tauto).
  split; [reflexivity|]. split; [exact Hk|]. split; [reflexivity|].
  split; [reflexivity|]. split; [reflexivity|]. split; [reflexivity|].
  exact (C10_unparsable_name_raises generator generator generator generator
           "two_point" "." 2 2 None no_options odd_files
           ["./two_point_basis_1_1.npy"] ["./two_point_basis_9_9.npy"]
           "./two_point_basis_old.npy" "basis"
           eq_refl Hk eq_refl eq_refl eq_refl eq_refl).
Defined.

(** The token between the underscores is a 7 between two spaces: no decimal
    integer as written, yet [int] reads 7 from it, and the call loads the
    file instead of raising. *)
Lemma C10_counterexample :
  candidates "." "two_point" spaced_files = ["./two_point_basis_ 7 _3.npy"] /\
  PyStr.getitem_m2 (PyStr.split "_" "./two_point_basis_ 7 _3.npy") = Some " 7 " /\
  PyStr.decimal_integer_string " 7 " = false /\
  run (Sample.get_bs_cached "two_point" 2 2 (Some ".") None no_options) spaced_files =
  (Returned (Np.getitem_slices (zeros 7 3) 2 2),
   {| files := spaced_files;
      trace := [Glob "./two_point_basis*"; Load "./two_point_basis_ 7 _3.npy"] |}).
Proof.
  split; [reflexivity|]. split; [reflexivity|]. split; reflexivity.
Qed.

End Runs.

(** * Further properties of [get_bs_cached] *)

(** ** More on names and files *)

Section MoreFacts.

Context {P : Platform}.

Import PyStr.

Lemma mem_str_Z (c : ascii) (z : Z) :
  digit_value c = None -> c <> "-"%char -> mem c (str_Z z) = false.
Proof.
  intros Hc Hm.
  assert (H0 : Ascii.eqb "0" c = false).
  { destruct (Ascii.eqb_spec "0" c) as [E|E]; [|reflexivity].
    rewrite <- E in Hc. discriminate. }
  assert (H : forall d, mem c (NilZero.string_of_uint d) = false).
  { intros d. unfold NilZero.string_of_uint.
    destruct d; try (now apply mem_string_of_uint).
    cbn [mem]. now rewrite H0. }
  destruct z as [|p|p]; unfold str_Z; cbn [Z.to_int NilZero.string_of_int].
  - cbn [NilZero.string_of_uint NilEmpty.string_of_uint mem]. now rewrite H0.
  - apply H.
  - cbn [mem]. rewrite H, orb_false_r.
    destruct (Ascii.eqb_spec "-" c) as [E|E]; [|reflexivity]. now subst c.
Qed.

Lemma mem_join (c : ascii) (l : list string) :
  (forall s, In s l -> mem c s = false) -> mem c (join l) = false.
Proof.
  induction l as [|a l IH]; intros H; [reflexivity|].
  unfold join. cbn [fold_right]. fold (join l).
  rewrite mem_app, (H a (or_introl eq_refl)), IH; [reflexivity|].
  intros s Hs. apply H. now right.
Qed.

Lemma mem_slash_str_Z (z : Z) : mem "/" (str_Z z) = false.
Proof. apply mem_str_Z; [reflexivity|discriminate]. Qed.

Lemma mem_slash_option_value (key : option_key) (o : basis_options_t) :
  mem "/" (option_value key o) = false.
Proof.
  destruct key; cbn [option_value].
  - destruct (legendre_orders o) as [l|]; [|reflexivity].
    apply mem_join. intros s Hs. apply in_map_iff in Hs.
    destruct Hs as (z & <- & _). apply mem_slash_str_Z.
  - destruct (proj_angles o) as [l|]; [|reflexivity].
    apply mem_join. intros s Hs. apply in_map_iff in Hs.
    destruct Hs as (z & <- & _). apply mem_slash_str_Z.
  - destruct (radial_step o); [|reflexivity]. apply mem_slash_str_Z.
  - destruct (clip o); [|reflexivity]. apply mem_slash_str_Z.
Qed.

(** A derived name continues [method ++ "_basis"] without leaving the
    directory. *)
Lemma basis_name_rest (method : string) (cols nbf : Z) (o : basis_options_t) :
  exists rest,
    basis_name method cols nbf o = (method ++ "_basis") ++ rest /\
    mem "/" rest = false.
Proof.
  unfold basis_name, basis_stem.
  destruct (String.eqb method "linbasex").
  - exists ("_" ++ str_Z cols ++ "_" ++ str_Z nbf
            ++ "_" ++ option_value key_legendre_orders o
            ++ "_" ++ option_value key_proj_angles o
            ++ "_" ++ option_value key_radial_step o
            ++ "_" ++ option_value key_clip o ++ ".npy").
    split.
    + cbn [fold_left]. rewrite !append_assoc. reflexivity.
    + rewrite !mem_app, !mem_slash_option_value, !mem_slash_str_Z. reflexivity.
  - exists ("_" ++ str_Z cols ++ "_" ++ str_Z nbf ++ ".npy").
    split.
    + rewrite !append_assoc. reflexivity.
    + rewrite !mem_app, !mem_slash_str_Z. reflexivity.
Qed.

Lemma known_method_relative (method : string) :
  In method known_methods ->
  forall rest, OsPath.starts_with_slash (method ++ rest) = false.
Proof.
  unfold known_methods. simpl.
  intros [<-|[<-|[<-|[<-|[]]]]] rest; reflexivity.
Qed.

(** The glob of a method finds the names derived for it. *)
Lemma matches_written (method dir : string) (cols nbf : Z) (o : basis_options_t) :
  In method known_methods ->
  Fs.matches (OsPath.join dir (method ++ "_basis"))
             (OsPath.join dir (basis_name method cols nbf o)) = true.
Proof.
  intros Hk.
  destruct (basis_name_rest method cols nbf o) as (rest & E & Hrest).
  rewrite E, !join_relative.
  - unfold Fs.matches. rewrite strip_prefix_app, strip_prefix_refl.
    now rewrite Hrest.
  - rewrite append_assoc. now apply known_method_relative.
  - now apply known_method_relative.
Qed.

Lemma candidates_have_token (dir method : string) (fs : list (string * content)) :
  Forall (fun p => exists t, getitem_m2 (split "_" p) = Some t)
         (candidates dir method fs).
Proof.
  apply Forall_forall. intros p Hp. unfold candidates in Hp.
  apply filter_In in Hp. now apply (matches_has_token dir method).
Qed.

(** With a token in every path, the loop ends in one of three ways, and its
    only error is that of [int]. *)
Lemma scan_outcome (cols nbf : Z) (bfs : list string) :
  Forall (fun p => exists t, getitem_m2 (split "_" p) = Some t) bfs ->
  (exists bf, first_reusable cols bfs bf) \/
  forallb (too_small cols) bfs = true \/
  (exists t, py_int t = None /\
             forall w, scan_basis_files cols nbf bfs w = (Raised (ValueError_int t), w)).
Proof.
  induction bfs as [|bf rest IH]; intros Hall; [now right; left|].
  inversion Hall as [|? ? (tok & Htok) Hrest]; subst.
  destruct (py_int tok) as [n|] eqn:En.
  - destruct (Z.leb_spec cols n) as [Hle|Hlt].
    + left. exists bf, [], rest. repeat split.
      unfold reusable, embedded_size. rewrite Htok, En. now apply Z.leb_le.
    + assert (Hs : too_small cols bf = true).
      { unfold too_small, embedded_size. rewrite Htok, En. now apply Z.ltb_lt. }
      destruct (IH Hrest) as [(bf' & pre & post & -> & Hpre & Hbf')|[Hm|(t & Ht & He)]].
      * left. exists bf', (bf :: pre), post. repeat split; trivial.
        cbn [forallb]. now rewrite Hs.
      * right; left. cbn [forallb]. now rewrite Hs.
      * right; right. exists t. split; [assumption|].
        intros w. now rewrite scan_skip.
  - right; right. exists tok. split; [assumption|]. intros w.
    cbn [scan_basis_files]. unfold bind at 1. rewrite Htok.
    cbn [or_raise]. unfold ret at 1. unfold bind at 1. now rewrite En.
Qed.

End MoreFacts.

(** ** Every way a call can go *)

Section Outcomes.

Context {P : Platform}.

Variables _bs_linbasex _bs_onion_peeling _bs_three_point _bs_two_point
  : Z -> basis_options_t -> Np.ndarray.

Local Abbreviation generator_of := (basis_generator
  _bs_linbasex _bs_onion_peeling _bs_three_point _bs_two_point).
Local Abbreviation call := (get_bs_cached
  _bs_linbasex _bs_onion_peeling _bs_three_point _bs_two_point).

Lemma basis_generator_some_known (method : string)
  (g : Z -> basis_options_t -> Np.ndarray) :
  generator_of method = Some g -> In method known_methods.
Proof.
  intros Hg.
  destruct (in_dec string_dec method known_methods) as [H|H]; [exact H|].
  rewrite (basis_generator_unknown _bs_linbasex _bs_onion_peeling
             _bs_three_point _bs_two_point method H) in Hg.
  discriminate.
Qed.

Lemma call_cases (method : string) (cols nbf : Z) (basis_dir : option string)
  (cached_basis : option (option Np.ndarray * option string))
  (basis_options : basis_options_t) (fs : list (string * content)) :
  let r := run (call method cols nbf basis_dir cached_basis basis_options) fs in
  (exists B,
     memory_cached cached_basis method cols = Some B /\
     r = (Returned B, {| files := fs; trace := [] |}))
  \/ (memory_cached cached_basis method cols = None /\
      ~ In method known_methods /\
      r = (Raised (ValueError_method method), {| files := fs; trace := [] |}))
  \/ (exists g,
        memory_cached cached_basis method cols = None /\
        generator_of method = Some g /\
        ((basis_dir = None /\
          r = (Returned (g cols basis_options),
               {| files := fs; trace := [Generate method cols] |}))
         \/ exists dir,
              basis_dir = Some dir /\
              let pattern := OsPath.join dir (method ++ "_basis") ++ "*" in
              let path := OsPath.join dir (basis_name method cols nbf basis_options) in
              ((exists bf D,
                  first_reusable cols (candidates dir method fs) bf /\
                  Fs.lookup bf fs = Some (Npy D) /\
                  r = (Returned (Np.getitem_slices D cols nbf),
                       {| files := fs; trace := [Glob pattern; Load bf] |}))
               \/ (forallb (too_small cols) (candidates dir method fs) = true /\
                   r = (Returned (g cols basis_options),
                        {| files := Fs.write path (Npy (g cols basis_options)) fs;
                           trace := [Glob pattern; Generate method cols; Save path] |}))
               \/ (exists t,
                     PyStr.py_int t = None /\
                     r = (Raised (ValueError_int t),
                          {| files := fs; trace := [Glob pattern] |}))
               \/ (exists bf,
                     first_reusable cols (candidates dir method fs) bf /\
                     (forall D, Fs.lookup bf fs <> Some (Npy D)) /\
                     r = (Raised (IOError bf),
                          {| files := fs;
                             trace := [Glob pattern; LoadFailed bf] |}))))).
Proof.
  intros r. subst r.
  destruct (memory_cached cached_basis method cols) as [B|] eqn:Hm.
  { left. exists B. split; [reflexivity|].
    unfold run, get_bs_cached. now rewrite Hm. }
  right.
  destruct (generator_of method) as [g|] eqn:Hg.
  2:{ left. split; [reflexivity|]. split.
      - intros Hk.
        destruct (basis_generator_known _bs_linbasex _bs_onion_peeling
                    _bs_three_point _bs_two_point method Hk) as (g & Hg').
        congruence.
      - unfold run, get_bs_cached. now rewrite Hm, Hg. }
  right. exists g. split; [reflexivity|]. split; [reflexivity|].
  destruct basis_dir as [dir|].
  2:{ left. split; [reflexivity|].
      now apply (call_without_dir _bs_linbasex _bs_onion_peeling
                   _bs_three_point _bs_two_point). }
  right. exists dir. split; [reflexivity|]. cbv zeta.
  pose proof (call_with_dir _bs_linbasex _bs_onion_peeling _bs_three_point
                _bs_two_point method dir cols nbf cached_basis basis_options
                g fs Hm Hg) as Hcall.
  cbv zeta in Hcall. rewrite Hcall.
  destruct (scan_outcome cols nbf _ (candidates_have_token dir method fs))
    as [(bf & Hbf)|[Hall|(t & Ht & He)]].
  - pose proof Hbf as (pre & post & Hc & Hpre & Hr).
    destruct (Fs.lookup bf fs) as [[D|]|] eqn:E.
    + left. exists bf, D. split; [assumption|]. split; [exact E|].
      rewrite Hc.
      now rewrite (scan_hit cols nbf pre post bf D (mk_world fs _) Hpre Hr E).
    + right; right; right. exists bf. split; [assumption|].
      assert (HD : forall D, Fs.lookup bf fs <> Some (Npy D))
        by (intros D; rewrite E; discriminate).
      split; [exact HD|]. rewrite Hc.
      now rewrite (scan_hit_unreadable cols nbf pre post bf (mk_world fs _) Hpre Hr).
    + right; right; right. exists bf. split; [assumption|].
      assert (HD : forall D, Fs.lookup bf fs <> Some (Npy D))
        by (intros D; rewrite E; discriminate).
      split; [exact HD|]. rewrite Hc.
      now rewrite (scan_hit_unreadable cols nbf pre post bf (mk_world fs _) Hpre Hr).
  - right; left. split; [assumption|].
    now rewrite (scan_miss cols nbf _ _ Hall).
  - right; right; left. exists t. split; [assumption|]. now rewrite He.
Qed.

End Outcomes.

(** ** Names told apart *)

Section NameInjectivity.

Context {P : Platform}.

Lemma length_append (a b : string) :
  String.length (a ++ b) = (String.length a + String.length b)%nat.
Proof.
  induction a as [|c a IH]; simpl; [reflexivity|]. now rewrite IH.
Qed.

Lemma append_cancel_l (a x y : string) : a ++ x = a ++ y -> x = y.
Proof.
  induction a as [|c a IH]; simpl; intros H; [exact H|].
  apply IH. now inversion H.
Qed.

Lemma append_cancel_r (x y z : string) : x ++ z = y ++ z -> x = y.
Proof.
  revert y. induction x as [|c x IH]; intros [|d y] H; simpl in H.
  - reflexivity.
  - apply (f_equal String.length) in H. simpl in H.
    rewrite length_append in H. lia.
  - apply (f_equal String.length) in H. simpl in H.
    rewrite length_append in H. lia.
  - inversion H. f_equal. now apply IH.
Qed.

Lemma str_Z_injective (a b : Z) : PyStr.str_Z a = PyStr.str_Z b -> a = b.
Proof.
  intros H. apply (f_equal PyStr.py_int) in H.
  rewrite !py_int_str_Z in H. now inversion H.
Qed.

Lemma dasch_known (method : string) :
  In method dasch_methods -> In method known_methods.
Proof. unfold dasch_methods, known_methods. simpl. tauto. Qed.

Lemma basis_name_dasch (method : string) (cols nbf : Z) (o : basis_options_t) :
  In method dasch_methods ->
  basis_name method cols nbf o =
  method ++ "_basis_" ++ PyStr.str_Z cols ++ "_" ++ PyStr.str_Z nbf ++ ".npy".
Proof.
  unfold dasch_methods. simpl.
  intros [<-|[<-|[<-|[]]]]; unfold basis_name, basis_stem;
    cbn [String.eqb Ascii.eqb Bool.eqb]; rewrite !append_assoc; reflexivity.
Qed.

(** The glob of one method leaves the names of the others aside. *)
Lemma matches_other_method (method other dir : string) (cols nbf : Z)
  (o : basis_options_t) :
  In method known_methods -> In other known_methods -> other <> method ->
  Fs.matches (OsPath.join dir (method ++ "_basis"))
             (OsPath.join dir (basis_name other cols nbf o)) = false.
Proof.
  intros Hm Ho Hne.
  destruct (basis_name_rest other cols nbf o) as (rest & E & _).
  rewrite E, !join_relative.
  - unfold Fs.matches. rewrite strip_prefix_app.
    unfold known_methods in Hm, Ho. simpl in Hm, Ho.
    destruct Hm as [<-|[<-|[<-|[<-|[]]]]];
      destruct Ho as [<-|[<-|[<-|[<-|[]]]]];
      try reflexivity; contradiction.
  - rewrite append_assoc. now apply known_method_relative.
  - now apply known_method_relative.
Qed.

End NameInjectivity.

(** ** Properties beyond the specification *)

Section Further.

Context {P : Platform}.

Variables _bs_linbasex _bs_onion_peeling _bs_three_point _bs_two_point
  : Z -> basis_options_t -> Np.ndarray.

Local Abbreviation generator_of := (basis_generator
  _bs_linbasex _bs_onion_peeling _bs_three_point _bs_two_point).
Local Abbreviation call := (get_bs_cached
  _bs_linbasex _bs_onion_peeling _bs_three_point _bs_two_point).
Local Abbreviation cases := (call_cases
  _bs_linbasex _bs_onion_peeling _bs_three_point _bs_two_point).

(** X1. For the three methods of [abel.dasch], the size the loop reads from
    a name the function derived is the size the name was derived for,
    whatever the directory, the number of basis functions and the options;
    so such a file passes the test of a request exactly when the request
    asks for no more than that size. *)
Theorem X1_dasch_size_read_back (method dir : string) (cols0 nbf0 : Z)
  (stored_options : basis_options_t) :
  In method dasch_methods ->
  let path := OsPath.join dir (basis_name method cols0 nbf0 stored_options) in
  embedded_size path = Some cols0 /\
  forall cols, reusable cols path = true <-> (cols <= cols0)%Z.
Proof.
  intros H path. split.
  - now apply embedded_size_written_dasch.
  - intros cols. unfold path. rewrite reusable_written_dasch by exact H.
    apply Z.leb_le.
Qed.

(** X2. For [linbasex] the number the loop reads from a name the function
    derived is the radial step (1 when the option is absent), not the size:
    such a file passes the test of a request exactly when the requested size
    is at most its radial step. *)
Theorem X2_linbasex_radial_step_read_back (dir : string) (cols0 nbf0 : Z)
  (stored_options : basis_options_t) :
  let path := OsPath.join dir (basis_name "linbasex" cols0 nbf0 stored_options) in
  embedded_size path = Some (radial_step_or_default stored_options) /\
  forall cols,
    reusable cols path = true <-> (cols <= radial_step_or_default stored_options)%Z.
Proof.
  intros path. split.
  - apply embedded_size_written_linbasex.
  - intros cols. unfold path. rewrite reusable_written_linbasex.
    apply Z.leb_le.
Qed.

(** X3. Every path the glob hands to the loop has a second-to-last token,
    whatever the method, the directory and its files: the pattern ends in
    ["_basis*"], so a matching path has at least one separator and the
    [[-2]] of line 105 never fails. *)
Theorem X3_token_always_present (method dir bf : string)
  (fs : list (string * content)) :
  In bf (candidates dir method fs) ->
  (2 <= List.length (PyStr.split "_" bf))%nat /\
  exists tok, PyStr.getitem_m2 (PyStr.split "_" bf) = Some tok.
Proof.
  intros H. unfold candidates in H. apply filter_In in H. destruct H as [_ H].
  destruct (matches_has_token dir method bf H) as (tok & Ht).
  split; [|now exists tok].
  unfold PyStr.getitem_m2 in Ht.
  rewrite <- (length_rev (PyStr.split "_" bf)).
  destruct (rev (PyStr.split "_" bf)) as [|a [|b r]]; try discriminate.
  simpl. lia.
Qed.


(** X5. A call writes at most the file of the derived name in the given
    directory: every other path holds after the call what it held before,
    and without a directory nothing is written at all. *)
Theorem X5_other_files_untouched (method : string) (cols nbf : Z)
  (basis_dir : option string)
  (cached_basis : option (option Np.ndarray * option string))
  (basis_options : basis_options_t) (fs : list (string * content))
  (q : string) :
  (forall dir, basis_dir = Some dir ->
               q <> OsPath.join dir (basis_name method cols nbf basis_options)) ->
  let w := snd (run (call method cols nbf basis_dir cached_basis basis_options) fs) in
  Fs.lookup q (files w) = Fs.lookup q fs /\
  (basis_dir = None -> files w = fs).
Proof.
  intros Hq w. subst w.
  destruct (cases method cols nbf basis_dir cached_basis basis_options fs)
    as [(B & _ & Hr)|[(_ & Hk & Hr)|(g & _ & Hg & [(Hn & Hr)|(dir & Hd & Hdir)])]];
    try (rewrite Hr; now split).
  cbv zeta in Hdir.
  destruct Hdir as [(bf & D & _ & _ & Hr)|[(_ & Hr)|[(t & Ht & Hr)|(bf & _ & _ & Hr)]]];
    rewrite Hr; cbn [snd files]; try (now split).
  split; [|intros Hn; congruence].
  apply lookup_write_other. now apply Hq.
Qed.

(** X6. A call for one method never loads a file whose name was derived for
    another of the four methods, although they share the directory. *)
Theorem X6_other_methods_files_not_loaded (method other dir : string)
  (cols nbf cols0 nbf0 : Z)
  (cached_basis : option (option Np.ndarray * option string))
  (basis_options stored_options : basis_options_t)
  (fs : list (string * content)) :
  In other known_methods ->
  other <> method ->
  ~ In (Load (OsPath.join dir (basis_name other cols0 nbf0 stored_options)))
       (trace (snd (run (call method cols nbf (Some dir) cached_basis
                           basis_options) fs))).
Proof.
  intros Ho Hne Hin.
  destruct (cases method cols nbf (Some dir) cached_basis basis_options fs)
    as [(B & _ & Hr)|[(_ & Hk & Hr)|(g & _ & Hg & [(Hn & Hr)|(d & Hd & Hdir)])]];
    try (rewrite Hr in Hin; simpl in Hin; tauto).
  - discriminate.
  - inversion Hd; subst d. cbv zeta in Hdir.
    destruct Hdir as [(bf & D & Hf & _ & Hr)|[(_ & Hr)|[(t & Ht & Hr)|(bf & _ & _ & Hr)]]];
      rewrite Hr in Hin; simpl in Hin.
    + destruct Hin as [Hin|[Hin|[]]]; [discriminate|].
      inversion Hin; subst bf.
      destruct Hf as (pre & post & Hc & _).
      assert (H : In (OsPath.join dir (basis_name other cols0 nbf0 stored_options))
                     (candidates dir method fs))
        by (rewrite Hc; apply in_or_app; right; now left).
      unfold candidates in H. apply filter_In in H. destruct H as [_ H].
      rewrite matches_other_method in H; trivial; [discriminate|].
      now apply (basis_generator_some_known _bs_linbasex _bs_onion_peeling
                   _bs_three_point _bs_two_point method g).
    + destruct Hin as [Hin|[Hin|[Hin|[]]]]; discriminate.
    + destruct Hin as [Hin|[]]; discriminate.
    + destruct Hin as [Hin|[Hin|[]]]; discriminate.
Qed.

(** X7. For the three methods of [abel.dasch] the derived name tells the
    method, the size and the number of basis functions apart: two requests
    get the same name only when they agree on all three. The options do not
    enter it. *)
Theorem X7_dasch_names_injective (m m' : string) (cols nbf cols' nbf' : Z)
  (o o' : basis_options_t) :
  In m dasch_methods ->
  In m' dasch_methods ->
  basis_name m cols nbf o = basis_name m' cols' nbf' o' ->
  m = m' /\ cols = cols' /\ nbf = nbf'.
Proof.
  intros Hm Hm' E.
  assert (Em : m = m').
  { rewrite (basis_name_dasch m cols nbf o Hm),
            (basis_name_dasch m' cols' nbf' o' Hm') in E.
    unfold dasch_methods in Hm, Hm'. simpl in Hm, Hm'.
    destruct Hm as [<-|[<-|[<-|[]]]]; destruct Hm' as [<-|[<-|[<-|[]]]];
      try reflexivity; discriminate. }
  subst m'. split; [reflexivity|].
  assert (Ec : cols = cols').
  { pose proof (embedded_size_written_dasch m "" cols nbf o Hm) as H1.
    pose proof (embedded_size_written_dasch m "" cols' nbf' o' Hm') as H2.
    rewrite E in H1. congruence. }
  subst cols'. split; [reflexivity|].
  rewrite (basis_name_dasch m cols nbf o Hm),
          (basis_name_dasch m cols nbf' o' Hm) in E.
  apply append_cancel_l in E. apply append_cancel_l in E.
  apply append_cancel_l in E. apply append_cancel_l in E.
  apply append_cancel_r in E. now apply str_Z_injective.
Qed.

(** X8. What a disk hit returns, [D[:cols, :nbf]] of a well-formed array
    for sizes that are not negative, is well formed, has
    [min cols rows] rows and [min nbf columns] columns, and holds in each of
    its places the entry the stored array holds there. A request beyond the
    stored extent is cut short without an error. *)
Theorem X8_slice_is_leading_block (D : Np.ndarray) (cols nbf : Z) :
  Np.wf D -> (0 <= cols)%Z -> (0 <= nbf)%Z ->
  let R := Np.getitem_slices D cols nbf in
  Np.wf R /\
  Np.shape0 R = Nat.min (Z.to_nat cols) (Np.shape0 D) /\
  Np.shape1 R = Nat.min (Z.to_nat nbf) (Np.shape1 D) /\
  forall i j, (i < Np.shape0 R)%nat -> (j < Np.shape1 R)%nat ->
    exists x, Np.item R i j = Some x /\ Np.item D i j = Some x.
Proof.
  intros Hwf Hc Hn R.
  assert (H0 : Np.shape0 R = Nat.min (Z.to_nat cols) (Np.shape0 D)).
  { unfold R, Np.getitem_slices, Np.slice_stop. cbn [Np.shape0].
    destruct (Z.ltb_spec cols 0); [lia|reflexivity]. }
  assert (H1 : Np.shape1 R = Nat.min (Z.to_nat nbf) (Np.shape1 D)).
  { unfold R, Np.getitem_slices, Np.slice_stop. cbn [Np.shape1].
    destruct (Z.ltb_spec nbf 0); [lia|reflexivity]. }
  split; [now apply getitem_slices_wf|]. split; [exact H0|]. split; [exact H1|].
  intros i j Hi Hj.
  assert (E : Np.item R i j = Np.item D i j).
  { apply item_getitem_slices; assumption. }
  rewrite E. destruct Hwf as [Hr Hcs]. unfold Np.item.
  destruct (nth_error (Np.rows D) i) as [row|] eqn:Ei.
  - assert (Hrow : List.length row = Np.shape1 D).
    { rewrite Forall_forall in Hcs. apply Hcs. now apply nth_error_In in Ei. }
    destruct (nth_error row j) as [x|] eqn:Ej; [now exists x|].
    apply nth_error_None in Ej. lia.
  - apply nth_error_None in Ei. lia.
Qed.

(** X9. Round trip for the three methods of [abel.dasch], any size and any
    directory content: when a call with a directory has generated, and the
    generated array is well formed and no larger than the request, the same
    call made again finds the file just saved, loads it, generates nothing,
    and returns the very same array. *)
Theorem X9_dasch_round_trip (method dir : string) (cols nbf : Z)
  (cached_basis : option (option Np.ndarray * option string))
  (basis_options : basis_options_t) (fs : list (string * content))
  (g : Z -> basis_options_t -> Np.ndarray) :
  In method dasch_methods ->
  generator_of method = Some g ->
  let get := call method cols nbf (Some dir) cached_basis basis_options in
  let G := g cols basis_options in
  In (Generate method cols) (trace (snd (run get fs))) ->
  Np.wf G ->
  (Z.of_nat (Np.shape0 G) <= cols)%Z ->
  (Z.of_nat (Np.shape1 G) <= nbf)%Z ->
  let w1 := snd (run get fs) in
  let path := OsPath.join dir (basis_name method cols nbf basis_options) in
  run get (files w1) =
  (Returned G,
   {| files := files w1;
      trace := [Glob (OsPath.join dir (method ++ "_basis") ++ "*"); Load path] |}).
Proof.
  intros Hd Hg get G Hgen Hwf H0 H1 w1 path.
  pose proof (dasch_known method Hd) as Hk.
  assert (Hfirst : memory_cached cached_basis method cols = None /\
                   forallb (too_small cols) (candidates dir method fs) = true /\
                   files w1 = Fs.write path (Npy G) fs).
  { unfold w1.
    destruct (cases method cols nbf (Some dir) cached_basis basis_options fs)
      as [(B & _ & Hr)|[(_ & _ & Hr)|(g' & Hm & Hg' & [(Hn & _)|(d & Hd' & Hdir)])]];
      fold get in Hr || idtac;
      try (rewrite Hr in Hgen; simpl in Hgen; tauto).
    - discriminate.
    - inversion Hd'; subst d. cbv zeta in Hdir.
      destruct Hdir as [(bf & D & _ & _ & Hr)|[(Hall & Hr)|[(t & _ & Hr)|(bf & _ & _ & Hr)]]];
        fold get in Hr.
      + rewrite Hr in Hgen. simpl in Hgen.
        destruct Hgen as [H|[H|[]]]; discriminate.
      + rewrite Hr. cbn [snd files]. repeat split; trivial.
        unfold G, path. congruence.
      + rewrite Hr in Hgen. simpl in Hgen. destruct Hgen as [H|[]]; discriminate.
      + rewrite Hr in Hgen. simpl in Hgen.
        destruct Hgen as [H|[H|[]]]; discriminate. }
  destruct Hfirst as (Hm & Hall & Hfiles).
  assert (Hr : reusable cols path = true).
  { unfold path. rewrite reusable_written_dasch by exact Hd. apply Z.leb_refl. }
  assert (Hmatch : Fs.matches (OsPath.join dir (method ++ "_basis")) path = true)
    by (now apply matches_written).
  assert (Hnew : ~ In path (map fst fs)).
  { intros Hin.
    assert (Hc : In path (candidates dir method fs)).
    { unfold candidates. apply filter_In. now split. }
    rewrite forallb_forall in Hall. specialize (Hall path Hc).
    unfold too_small in Hall. unfold reusable in Hr.
    destruct (embedded_size path); [lia|discriminate]. }
  pose proof (call_with_dir _bs_linbasex _bs_onion_peeling _bs_three_point
                _bs_two_point method dir cols nbf cached_basis basis_options
                g (files w1) Hm Hg) as Hcall.
  cbv zeta in Hcall. fold get in Hcall. rewrite Hcall.
  destruct (candidates_write_new dir method path (Npy G) fs Hnew Hmatch)
    as (pre & post & E1 & E2).
  rewrite Hfiles at 1. rewrite E2.
  rewrite E1, forallb_app in Hall. apply andb_prop in Hall.
  destruct Hall as [Hpre _].
  rewrite (scan_hit cols nbf pre post path G (mk_world (files w1) _) Hpre Hr).
  - now rewrite getitem_slices_all.
  - cbn [files]. rewrite Hfiles. apply lookup_write.
Qed.

(** X10. For [linbasex] with a size above the radial step (above 1 when the
    option is absent) the file a call saves is never read back: when a call
    with a directory has generated, the same call made again generates
    again and saves again under the same name, leaving the files as the
    first call left them. *)
Theorem X10_linbasex_generates_again (dir : string) (cols nbf : Z)
  (cached_basis : option (option Np.ndarray * option string))
  (basis_options : basis_options_t) (fs : list (string * content)) :
  (radial_step_or_default basis_options < cols)%Z ->
  let get := call "linbasex" cols nbf (Some dir) cached_basis basis_options in
  In (Generate "linbasex" cols) (trace (snd (run get fs))) ->
  let w1 := snd (run get fs) in
  let path := OsPath.join dir (basis_name "linbasex" cols nbf basis_options) in
  run get (files w1) =
  (Returned (_bs_linbasex cols basis_options),
   {| files := files w1;
      trace := [Glob (OsPath.join dir ("linbasex" ++ "_basis") ++ "*");
                Generate "linbasex" cols; Save path] |}).
Proof.
  intros Hstep get Hgen w1 path.
  set (G := _bs_linbasex cols basis_options).
  assert (Hk : In "linbasex" known_methods) by (simpl; tauto).
  assert (Hfirst : memory_cached cached_basis "linbasex" cols = None /\
                   forallb (too_small cols) (candidates dir "linbasex" fs) = true /\
                   files w1 = Fs.write path (Npy G) fs).
  { unfold w1.
    destruct (cases "linbasex" cols nbf (Some dir) cached_basis basis_options fs)
      as [(B & _ & Hr)|[(_ & _ & Hr)|(g' & Hm & Hg' & [(Hn & _)|(d & Hd' & Hdir)])]];
      fold get in Hr || idtac;
      try (rewrite Hr in Hgen; simpl in Hgen; tauto).
    - discriminate.
    - inversion Hd'; subst d. cbv zeta in Hdir.
      destruct Hdir as [(bf & D & _ & _ & Hr)|[(Hall & Hr)|[(t & _ & Hr)|(bf & _ & _ & Hr)]]];
        fold get in Hr.
      + rewrite Hr in Hgen. simpl in Hgen.
        destruct Hgen as [H|[H|[]]]; discriminate.
      + rewrite Hr. cbn [snd files]. repeat split; trivial.
        inversion Hg'; subst g'. reflexivity.
      + rewrite Hr in Hgen. simpl in Hgen. destruct Hgen as [H|[]]; discriminate.
      + rewrite Hr in Hgen. simpl in Hgen.
        destruct Hgen as [H|[H|[]]]; discriminate. }
  destruct Hfirst as (Hm & Hall & Hfiles).
  assert (Hsmall : too_small cols path = true).
  { unfold too_small, path. rewrite embedded_size_written_linbasex.
    apply Z.ltb_lt. exact Hstep. }
  assert (Hall' : forallb (too_small cols)
                    (candidates dir "linbasex" (Fs.write path (Npy G) fs)) = true).
  { destruct (in_dec string_dec path (map fst fs)) as [Hin|Hnew].
    - now rewrite candidates_write_old.
    - destruct (candidates_write_new dir "linbasex" path (Npy G) fs Hnew
                  (matches_written "linbasex" dir cols nbf basis_options Hk))
        as (pre & post & E1 & E2).
      rewrite E2. rewrite E1, forallb_app in Hall. apply andb_prop in Hall.
      destruct Hall as [Hpre Hpost].
      rewrite forallb_app, Hpre. cbn [forallb andb]. now rewrite Hsmall, Hpost. }
  pose proof (call_with_dir _bs_linbasex _bs_onion_peeling _bs_three_point
                _bs_two_point "linbasex" dir cols nbf cached_basis basis_options
                _bs_linbasex (files w1) Hm eq_refl) as Hcall.
  cbv zeta in Hcall. fold get in Hcall. rewrite Hcall.
  rewrite Hfiles at 1. rewrite (scan_miss cols nbf _ _ Hall').
  cbn [files trace app]. fold G. fold path.
  rewrite Hfiles at 1. now rewrite write_write, <- Hfiles.
Qed.

(** X11. With a single file in the directory, an array whose name was
    derived for a method of [abel.dasch] and size [cols0], a request of that
    method is served from the file exactly when it asks for at most [cols0]
    rows, whatever number of basis functions the name or the request
    carries; a larger request generates and saves a second file, and the
    directory then holds the two. *)
Theorem X11_single_stored_file (method dir : string) (cols nbf cols0 nbf0 : Z)
  (cached_basis : option (option Np.ndarray * option string))
  (basis_options stored_options : basis_options_t) (D : Np.ndarray) :
  In method dasch_methods ->
  memory_cached cached_basis method cols = None ->
  let path0 := OsPath.join dir (basis_name method cols0 nbf0 stored_options) in
  let path := OsPath.join dir (basis_name method cols nbf basis_options) in
  let pattern := OsPath.join dir (method ++ "_basis") ++ "*" in
  let r := run (call method cols nbf (Some dir) cached_basis basis_options)
               [(path0, Npy D)] in
  ((cols <= cols0)%Z ->
   r = (Returned (Np.getitem_slices D cols nbf),
        {| files := [(path0, Npy D)]; trace := [Glob pattern; Load path0] |}))
  /\
  ((cols0 < cols)%Z ->
   exists g,
     generator_of method = Some g /\
     fst r = Returned (g cols basis_options) /\
     trace (snd r) = [Glob pattern; Generate method cols; Save path] /\
     Fs.lookup path0 (files (snd r)) = Some (Npy D) /\
     Fs.lookup path (files (snd r)) = Some (Npy (g cols basis_options)) /\
     List.length (files (snd r)) = 2%nat).
Proof.
  intros Hd Hm path0 path pattern r.
  pose proof (dasch_known method Hd) as Hk.
  destruct (basis_generator_known _bs_linbasex _bs_onion_peeling
              _bs_three_point _bs_two_point method Hk) as (g & Hg).
  assert (Hc : candidates dir method [(path0, Npy D)] = [path0]).
  { unfold candidates. cbn [map fst filter]. unfold path0.
    now rewrite matches_written. }
  pose proof (call_with_dir _bs_linbasex _bs_onion_peeling _bs_three_point
                _bs_two_point method dir cols nbf cached_basis basis_options
                g [(path0, Npy D)] Hm Hg) as Hcall.
  cbv zeta in Hcall. fold r pattern path in Hcall. rewrite Hc in Hcall.
  split; intros Hcols.
  - rewrite Hcall.
    rewrite (scan_take cols nbf path0 [] D (mk_world [(path0, Npy D)] _)).
    + reflexivity.
    + unfold path0. rewrite reusable_written_dasch by exact Hd.
      now apply Z.leb_le.
    + cbn [files Fs.lookup]. now rewrite String.eqb_refl.
  - exists g. split; [exact Hg|]. rewrite Hcall.
    assert (Hne : path <> path0).
    { intros E.
      pose proof (embedded_size_written_dasch method dir cols0 nbf0
                    stored_options Hd) as H0.
      pose proof (embedded_size_written_dasch method dir cols nbf
                    basis_options Hd) as H1.
      fold path0 in H0. fold path in H1. rewrite E in H1.
      assert (cols0 = cols) by congruence. lia. }
    assert (Hnew : ~ In path (map fst [(path0, Npy D)])).
    { simpl. intros [E|[]]. now apply Hne. }
    rewrite (scan_miss cols nbf [path0] (mk_world [(path0, Npy D)] _)).
    + cbn [fst snd files trace app].
      split; [reflexivity|]. split; [reflexivity|].
      split; [|split; [apply lookup_write|]].
      * rewrite lookup_write_other by (intros E; now apply Hne).
        cbn [Fs.lookup]. now rewrite String.eqb_refl.
      * destruct (write_new path (Npy (g cols basis_options)) _ Hnew)
          as (l1 & l2 & E1 & E2).
        rewrite E2, length_app. cbn [List.length].
        apply (f_equal (@List.length _)) in E1. rewrite length_app in E1.
        simpl in E1. lia.
    + cbn [forallb]. unfold too_small, path0.
      rewrite embedded_size_written_dasch by exact Hd.
      rewrite andb_true_r. now apply Z.ltb_lt.
Qed.

(** X12. What a call saves can be found again: after a call with a
    directory has generated, the path of the derived name holds the
    generated array, and the glob of the same method in the same directory
    lists it. This holds for all four methods. *)
Theorem X12_saved_file_is_listed (method dir : string) (cols nbf : Z)
  (cached_basis : option (option Np.ndarray * option string))
  (basis_options : basis_options_t) (fs : list (string * content)) :
  let get := call method cols nbf (Some dir) cached_basis basis_options in
  In (Generate method cols) (trace (snd (run get fs))) ->
  let w1 := snd (run get fs) in
  let path := OsPath.join dir (basis_name method cols nbf basis_options) in
  exists g,
    generator_of method = Some g /\
    Fs.lookup path (files w1) = Some (Npy (g cols basis_options)) /\
    In path (candidates dir method (files w1)).
Proof.
  intros get Hgen w1 path. unfold w1.
  destruct (cases method cols nbf (Some dir) cached_basis basis_options fs)
    as [(B & _ & Hr)|[(_ & _ & Hr)|(g & Hm & Hg & [(Hn & _)|(d & Hd' & Hdir)])]];
    fold get in Hr || idtac;
    try (rewrite Hr in Hgen; simpl in Hgen; tauto).
  - discriminate.
  - inversion Hd'; subst d. cbv zeta in Hdir.
    destruct Hdir as [(bf & D & _ & _ & Hr)|[(Hall & Hr)|[(t & _ & Hr)|(bf & _ & _ & Hr)]]];
      fold get in Hr.
    + rewrite Hr in Hgen. simpl in Hgen.
      destruct Hgen as [H|[H|[]]]; discriminate.
    + exists g. split; [assumption|]. rewrite Hr. cbn [snd files]. fold path.
      split; [apply lookup_write|].
      unfold candidates. apply filter_In. split; [apply in_map_fst_write|].
      apply matches_written.
      now apply (basis_generator_some_known _bs_linbasex _bs_onion_peeling
                   _bs_three_point _bs_two_point method g).
    + rewrite Hr in Hgen. simpl in Hgen. destruct Hgen as [H|[]]; discriminate.
    + rewrite Hr in Hgen. simpl in Hgen.
      destruct Hgen as [H|[H|[]]]; discriminate.
Qed.

(** X13. The choice of the file to load consults neither the number of
    basis functions nor the options: when a call loads a file, the call with
    the same method, size, directory and memory slot but any other number of
    basis functions and any other options loads the same file, and returns
    its leading block for the new number of basis functions. *)
Theorem X13_lookup_ignores_nbf_and_options (method dir : string) (cols nbf nbf' : Z)
  (cached_basis : option (option Np.ndarray * option string))
  (basis_options basis_options' : basis_options_t)
  (fs : list (string * content)) (bf : string) :
  In (Load bf)
     (trace (snd (run (call method cols nbf (Some dir) cached_basis
                         basis_options) fs))) ->
  exists D,
    Fs.lookup bf fs = Some (Npy D) /\
    run (call method cols nbf' (Some dir) cached_basis basis_options') fs =
    (Returned (Np.getitem_slices D cols nbf'),
     {| files := fs;
        trace := [Glob (OsPath.join dir (method ++ "_basis") ++ "*"); Load bf] |}).
Proof.
  intros Hin.
  destruct (cases method cols nbf (Some dir) cached_basis basis_options fs)
    as [(B & _ & Hr)|[(_ & _ & Hr)|(g & Hm & Hg & [(Hn & _)|(d & Hd' & Hdir)])]];
    try (rewrite Hr in Hin; simpl in Hin; tauto).
  - discriminate.
  - inversion Hd'; subst d. cbv zeta in Hdir.
    destruct Hdir as [(bf' & D & Hf & HD & Hr)|[(_ & Hr)|[(t & _ & Hr)|(bf' & _ & _ & Hr)]]];
      rewrite Hr in Hin; simpl in Hin.
    + destruct Hin as [H|[H|[]]]; [discriminate|]. inversion H; subst bf'.
      exists D. split; [assumption|].
      destruct Hf as (pre & post & Hc & Hpre & Hreuse).
      pose proof (call_with_dir _bs_linbasex _bs_onion_peeling _bs_three_point
                    _bs_two_point method dir cols nbf' cached_basis
                    basis_options' g fs Hm Hg) as Hcall.
      cbv zeta in Hcall. rewrite Hcall, Hc.
      now rewrite (scan_hit cols nbf' pre post bf D (mk_world fs _) Hpre Hreuse HD).
    + destruct Hin as [H|[H|[H|[]]]]; discriminate.
    + destruct Hin as [H|[]]; discriminate.
    + destruct Hin as [H|[H|[]]]; discriminate.
Qed.

End Further.

(** ** The further properties on concrete calls *)

Section FurtherRuns.

Local Existing Instance Sample.platform.

Import Sample.

Lemma X1_dasch_size_witness :
  In "two_point" dasch_methods /\
  embedded_size (OsPath.join "." (basis_name "two_point" 64 32 step_5)) = Some 64%Z /\
  forall cols,
    reusable cols (OsPath.join "." (basis_name "two_point" 64 32 step_5)) = true
    <-> (cols <= 64)%Z.
Proof.
  assert (H : In "two_point" dasch_methods) by (simpl; tauto).
  split; [exact H|].
  exact (X1_dasch_size_read_back "two_point" "." 64 32 step_5 H).
Defined.

Lemma X3_token_witness :
  In "./two_point_basis_old.npy" (candidates "." "two_point" odd_files) /\
  (2 <= List.length (PyStr.split "_" "./two_point_basis_old.npy"))%nat /\
  exists tok,
    PyStr.getitem_m2 (PyStr.split "_" "./two_point_basis_old.npy") = Some tok.
Proof.
  assert (H : In "./two_point_basis_old.npy" (candidates "." "two_point" odd_files)).
  { vm_compute. right. left. reflexivity. }
  split; [exact H|].
  exact (X3_token_always_present "two_point" "." "./two_point_basis_old.npy"
           odd_files H).
Defined.

(** A call that saves [./two_point_basis_5_1.npy] leaves
    [./two_point_basis_3_3.npy] as it was. *)
Lemma X5_other_files_witness :
  (forall dir, Some "." = Some dir ->
               "./two_point_basis_3_3.npy" <>
               OsPath.join dir (basis_name "two_point" 5 1 no_options)) /\
  Fs.lookup "./two_point_basis_3_3.npy"
    (files (snd (run (Sample.get_bs_cached "two_point" 5 1 (Some ".") None
                        no_options) dot_files))) =
  Fs.lookup "./two_point_basis_3_3.npy" dot_files.
Proof.
  assert (H : forall dir, Some "." = Some dir ->
                "./two_point_basis_3_3.npy" <>
                OsPath.join dir (basis_name "two_point" 5 1 no_options)).
  { intros dir E. inversion E; subst dir. vm_compute. discriminate. }
  split; [exact H|].
  exact (proj1 (X5_other_files_untouched generator generator generator generator
                  "two_point" 5 1 (Some ".") None no_options dot_files
                  "./two_point_basis_3_3.npy" H)).
Defined.

Lemma X6_other_methods_witness :
  In "three_point" known_methods /\
  "three_point" <> "two_point" /\
  ~ In (Load (OsPath.join "." (basis_name "three_point" 9 9 no_options)))
       (trace (snd (run (Sample.get_bs_cached "two_point" 2 2 (Some ".") None
                           no_options)
                      (("./three_point_basis_9_9.npy", Npy (zeros 9 9)) :: dot_files)))).
Proof.
  assert (H : In "three_point" known_methods) by (simpl; tauto).
  assert (Hne : "three_point" <> "two_point") by discriminate.
  split; [exact H|]. split; [exact Hne|].
  exact (X6_other_methods_files_not_loaded generator generator generator generator
           "two_point" "three_point" "." 2 2 9 9 None no_options no_options
           (("./three_point_basis_9_9.npy", Npy (zeros 9 9)) :: dot_files) H Hne).
Defined.

(** The options do not enter the name of [two_point]. *)
Lemma X7_dasch_names_witness :
  In "two_point" dasch_methods /\
  basis_name "two_point" 64 32 no_options = basis_name "two_point" 64 32 step_5 /\
  "two_point" = "two_point" /\ 64%Z = 64%Z /\ 32%Z = 32%Z.
Proof.
  assert (H : In "two_point" dasch_methods) by (simpl; tauto).
  assert (E : basis_name "two_point" 64 32 no_options =
              basis_name "two_point" 64 32 step_5) by reflexivity.
  split; [exact H|]. split; [exact E|].
  exact (X7_dasch_names_injective "two_point" "two_point" 64 32 64 32
           no_options step_5 H H E).
Defined.

(** Three columns are stored and five asked for: three come back. *)
Lemma X8_slice_witness :
  Np.wf (zeros 3 3) /\ (0 <= 2)%Z /\ (0 <= 5)%Z /\
  Np.wf (Np.getitem_slices (zeros 3 3) 2 5) /\
  Np.shape0 (Np.getitem_slices (zeros 3 3) 2 5) = 2%nat /\
  Np.shape1 (Np.getitem_slices (zeros 3 3) 2 5) = 3%nat.
Proof.
  assert (Hc : (0 <= 2)%Z) by lia.
  assert (Hn : (0 <= 5)%Z) by lia.
  split; [apply zeros_wf|]. split; [exact Hc|]. split; [exact Hn|].
  destruct (X8_slice_is_leading_block (zeros 3 3) 2 5 (zeros_wf 3 3) Hc Hn)
    as (Hwf & H0 & H1 & _).
  split; [exact Hwf|]. split; [exact H0|exact H1].
Defined.

Lemma X9_dasch_round_trip_witness :
  In "two_point" dasch_methods /\
  In (Generate "two_point" 5)
     (trace (snd (run (Sample.get_bs_cached "two_point" 5 5 (Some ".") None
                         no_options) dot_files))) /\
  run (Sample.get_bs_cached "two_point" 5 5 (Some ".") None no_options)
    (files (snd (run (Sample.get_bs_cached "two_point" 5 5 (Some ".") None
                        no_options) dot_files))) =
  (Returned (generator 5 no_options),
   {| files := files (snd (run (Sample.get_bs_cached "two_point" 5 5 (Some ".")
                                  None no_options) dot_files));
      trace := [Glob "./two_point_basis*"; Load "./two_point_basis_5_5.npy"] |}).
Proof.
  assert (H : In "two_point" dasch_methods) by (simpl; tauto).
  assert (Hg : In (Generate "two_point" 5)
                 (trace (snd (run (Sample.get_bs_cached "two_point" 5 5 (Some ".")
                                     None no_options) dot_files)))).
  { vm_compute. right. left. reflexivity. }
  assert (H0 : (Z.of_nat (Np.shape0 (generator 5 no_options)) <= 5)%Z)
    by (simpl; lia).
  assert (H1 : (Z.of_nat (Np.shape1 (generator 5 no_options)) <= 5)%Z)
    by (simpl; lia).
  split; [exact H|]. split; [exact Hg|].
  exact (X9_dasch_round_trip generator generator generator generator
           "two_point" "." 5 5 None no_options dot_files generator
           H eq_refl Hg (zeros_wf 5 5) H0 H1).
Defined.

Lemma X10_linbasex_witness :
  (radial_step_or_default no_options < 4)%Z /\
  In (Generate "linbasex" 4)
     (trace (snd (run (Sample.get_bs_cached "linbasex" 4 4 (Some ".") None
                         no_options) []))) /\
  run (Sample.get_bs_cached "linbasex" 4 4 (Some ".") None no_options)
    (files (snd (run (Sample.get_bs_cached "linbasex" 4 4 (Some ".") None
                        no_options) []))) =
  (Returned (generator 4 no_options),
   {| files := files (snd (run (Sample.get_bs_cached "linbasex" 4 4 (Some ".")
                                  None no_options) []));
      trace := [Glob "./linbasex_basis*"; Generate "linbasex" 4;
                Save "./linbasex_basis_4_4_02_050_1_0.npy"] |}).
Proof.
  assert (H : (radial_step_or_default no_options < 4)%Z) by reflexivity.
  assert (Hg : In (Generate "linbasex" 4)
                 (trace (snd (run (Sample.get_bs_cached "linbasex" 4 4 (Some ".")
                                     None no_options) [])))).
  { vm_compute. right. left. reflexivity. }
  split; [exact H|]. split; [exact Hg|].
  exact (X10_linbasex_generates_again generator generator generator generator
           "." 4 4 None no_options [] H Hg).
Defined.

Lemma X11_single_file_witness :
  In "onion_peeling" dasch_methods /\
  memory_cached None "onion_peeling" 2 = None /\
  (2 <= 3)%Z /\
  run (Sample.get_bs_cached "onion_peeling" 2 7 (Some "basis") None no_options)
    [("basis/onion_peeling_basis_3_3.npy", Npy (zeros 3 3))] =
  (Returned (Np.getitem_slices (zeros 3 3) 2 7),
   {| files := [("basis/onion_peeling_basis_3_3.npy", Npy (zeros 3 3))];
      trace := [Glob "basis/onion_peeling_basis*";
                Load "basis/onion_peeling_basis_3_3.npy"] |}).
Proof.
  assert (H : In "onion_peeling" dasch_methods) by (simpl; tauto).
  assert (Hc : (2 <= 3)%Z) by lia.
  split; [exact H|]. split; [reflexivity|]. split; [exact Hc|].
  exact (proj1 (X11_single_stored_file generator generator generator generator
                  "onion_peeling" "basis" 2 7 3 3 None no_options no_options
                  (zeros 3 3) H eq_refl) Hc).
Defined.

Lemma X12_saved_file_witness :
  In (Generate "linbasex" 4)
     (trace (snd (run (Sample.get_bs_cached "linbasex" 4 4 (Some ".") None step_5)
                    []))) /\
  exists g,
    basis_generator generator generator generator generator "linbasex" = Some g /\
    Fs.lookup (OsPath.join "." (basis_name "linbasex" 4 4 step_5))
      (files (snd (run (Sample.get_bs_cached "linbasex" 4 4 (Some ".") None step_5)
                     []))) = Some (Npy (g 4%Z step_5)) /\
    In (OsPath.join "." (basis_name "linbasex" 4 4 step_5))
       (candidates "." "linbasex"
          (files (snd (run (Sample.get_bs_cached "linbasex" 4 4 (Some ".") None
                              step_5) [])))).
Proof.
  assert (Hg : In (Generate "linbasex" 4)
                 (trace (snd (run (Sample.get_bs_cached "linbasex" 4 4 (Some ".")
                                     None step_5) [])))).
  { vm_compute. right. left. reflexivity. }
  split; [exact Hg|].
  exact (X12_saved_file_is_listed generator generator generator generator
           "linbasex" "." 4 4 None step_5 [] Hg).
Defined.

(** The file loaded for one basis function and no options is the one
    loaded for two basis functions and a radial step of 5. *)
Lemma X13_lookup_witness :
  In (Load "./two_point_basis_3_3.npy")
     (trace (snd (run (Sample.get_bs_cached "two_point" 2 1 (Some ".") None
                         no_options) dot_files))) /\
  exists D,
    Fs.lookup "./two_point_basis_3_3.npy" dot_files = Some (Npy D) /\
    run (Sample.get_bs_cached "two_point" 2 2 (Some ".") None step_5) dot_files =
    (Returned (Np.getitem_slices D 2 2),
     {| files := dot_files;
        trace := [Glob "./two_point_basis*"; Load "./two_point_basis_3_3.npy"] |}).
Proof.
  assert (H : In (Load "./two_point_basis_3_3.npy")
                (trace (snd (run (Sample.get_bs_cached "two_point" 2 1 (Some ".")
                                    None no_options) dot_files)))).
  { vm_compute. right. left. reflexivity. }
  split; [exact H|].
  exact (X13_lookup_ignores_nbf_and_options generator generator generator
           generator "two_point" "." 2 1 2 None no_options step_5 dot_files
           "./two_point_basis_3_3.npy" H).
Defined.

End FurtherRuns.
